(** * Incremental semantic indexing and retrieval: a shallow embedding

    Source modules embedded here (package [malawian_educational_ai_tutor]):
    - [config.py]      : the constants;
    - [ingest.py]      : [discover_textbook_files], [load_text_from_file],
                         [chunk_text];
    - [build_index.py] : the per-file cache and [build_or_update_index];
    - [rag_llm.py]     : [RAGTutor.__init__] and [RAGTutor._retrieve_context].

    Python [int] is [Z]; [str] is [string], one [ascii] per character (code
    points below 256); a [dict] whose insertion order is observable is an
    association list with Python's update-in-place semantics; the cache
    directory is a pair of finite maps keyed by the cache basename.  The
    embedding model, the similarity search, the file loaders and the path hash
    are collaborators: they are section variables. *)

From Stdlib Require Import ZArith List String Ascii Bool Lia DecimalString.
From stdpp Require Import base option list gmap strings.

Local Open Scope string_scope.
Local Open Scope list_scope.
Local Open Scope Z_scope.

(* ===================================================================== *)
(** ** Python strings and slices *)
(* ===================================================================== *)

Module Py.

(** [str.isspace] on one character, for code points below 256:
    TAB..CR, FS..US, SPACE, NEL and NBSP. *)
Definition is_space (c : ascii) : bool :=
  let n := N_of_ascii c in
  ((9 <=? n) && (n <=? 13))%N || ((28 <=? n) && (n <=? 32))%N
  || (n =? 133)%N || (n =? 160)%N.

Fixpoint all_space (s : string) : bool :=
  match s with
  | EmptyString => true
  | String c s' => is_space c && all_space s'
  end.

(** [str.split()] without arguments: maximal runs of non-space characters.
    [cur] holds the characters of the word being read, most recent first. *)
Fixpoint split_aux (s : string) (cur : list ascii) : list string :=
  match s with
  | EmptyString =>
      match cur with
      | [] => []
      | _ => [string_of_list_ascii (rev cur)]
      end
  | String c s' =>
      if is_space c then
        match cur with
        | [] => split_aux s' []
        | _ => string_of_list_ascii (rev cur) :: split_aux s' []
        end
      else split_aux s' (c :: cur)
  end.

Definition split (s : string) : list string := split_aux s [].

(** [str.lstrip()], [str.rstrip()] and [str.strip()]. *)
Fixpoint lstrip (s : string) : string :=
  match s with
  | EmptyString => EmptyString
  | String c s' => if is_space c then lstrip s' else s
  end.

Fixpoint rstrip (s : string) : string :=
  match s with
  | EmptyString => EmptyString
  | String c s' =>
      match rstrip s' with
      | EmptyString => if is_space c then EmptyString else String c EmptyString
      | r => String c r
      end
  end.

Definition strip (s : string) : string := rstrip (lstrip s).

(** Truth value of a string: [not s] is [is_empty s]. *)
Definition is_empty (s : string) : bool :=
  match s with EmptyString => true | _ => false end.

(** [len] of a list and of a string, as Python integers. *)
Definition len {A} (l : list A) : Z := Z.of_nat (length l).
Definition slen (s : string) : Z := Z.of_nat (String.length s).

(** Bound normalisation of a slice [l[i:j]]: a negative bound counts from the
    end, and every bound is clamped into [0, len l]. *)
Definition clamp (n i : Z) : Z :=
  if i <? 0 then Z.max 0 (i + n) else Z.min i n.

Definition slice {A} (l : list A) (start stop : Z) : list A :=
  let a := clamp (len l) start in
  let b := clamp (len l) stop in
  take (Z.to_nat (b - a)) (drop (Z.to_nat a) l).

(** [sep.join(parts)]. *)
Definition join (sep : string) (parts : list string) : string :=
  String.concat sep parts.

(** [str(n)] for a non-negative integer. *)
Definition str_of_nat (n : nat) : string :=
  NilZero.string_of_uint (Nat.to_uint n).

(** [str.lower] on one character, for code points below 256: A..Z and the
    Latin-1 capitals U+00C0..U+00DE, the multiplication sign U+00D7 apart,
    move up by 32. *)
Definition lower_char (c : ascii) : ascii :=
  let n := N_of_ascii c in
  if ((65 <=? n) && (n <=? 90))%N
     || ((192 <=? n) && (n <=? 222) && negb (n =? 215))%N
  then ascii_of_N (n + 32) else c.

Fixpoint lower (s : string) : string :=
  match s with
  | EmptyString => EmptyString
  | String c s' => String (lower_char c) (lower s')
  end.

End Py.

(* ===================================================================== *)
(** ** config.py *)
(* ===================================================================== *)

Definition EMBEDDING_MODEL_NAME : string := "sentence-transformers/all-MiniLM-L6-v2".
Definition CHUNK_SIZE_WORDS : Z := 500.
Definition CHUNK_OVERLAP_WORDS : Z := 50.
Definition TOP_K_CHUNKS : Z := 5.
Definition MAX_CONTEXT_CHARS : Z := 6000.

(* ===================================================================== *)
(** ** ingest.py: the chunker *)
(* ===================================================================== *)

(** The [while start < len(words)] loop of [chunk_text].  [fuel] bounds the
    number of iterations; [None] means the bound was hit before the loop
    left.  The two ways out of the loop (the condition and the [break]) both
    return the chunks gathered so far. *)
Fixpoint chunk_loop (fuel : nat) (words : list string)
    (chunk_size_words step start : Z) (chunks : list string)
    : option (list string) :=
  match fuel with
  | O => None
  | S fuel' =>
      if start <? Py.len words then
        let end_ := start + chunk_size_words in
        let chunk_words := Py.slice words start end_ in
        match chunk_words with
        | [] => Some chunks
        | _ :: _ =>
            chunk_loop fuel' words chunk_size_words step (start + step)
              (chunks ++ [Py.join " " chunk_words])
        end
      else Some chunks
  end.

Definition chunk_text_fuel (fuel : nat) (text : string)
    (chunk_size_words overlap_words : Z) : option (list string) :=
  let words := Py.split text in
  match words with
  | [] => Some []
  | _ :: _ =>
      let step := Z.max 1 (chunk_size_words - overlap_words) in
      chunk_loop fuel words chunk_size_words step 0 []
  end.

(** [chunk_text]: one iteration per word is always enough (see
    [chunk_text_fuel_enough] below), so the loop is run with that bound. *)
Definition chunk_text (text : string) (chunk_size_words overlap_words : Z)
    : list string :=
  default [] (chunk_text_fuel (S (length (Py.split text))) text
                chunk_size_words overlap_words).

(* ===================================================================== *)
(** ** Data model *)
(* ===================================================================== *)

(** One record of the docstore and of a per-file chunk cache. *)
Record Chunk := mkChunk {
  c_id : string;
  c_text : string;
  c_source_file : string;
  c_chunk_index : nat
}.

(** An embedding matrix is the list of its rows. *)
Definition matrix (vec : Type) : Type := list vec.

(** A regular file found under [TEXTBOOKS_DIR]: its resolved path, its
    suffix and the two [stat] fields the build reads. *)
Record SourceFile := mkSourceFile {
  sf_path : string;
  sf_suffix : string;
  st_mtime_ns : Z;
  st_size : Z
}.

(** What a format-specific loader does on a file: it returns text, raises
    [RuntimeError] (a missing dependency) or raises something else. *)
Inductive loaded :=
| Loaded (text : string)
| LoaderRuntimeError (msg : string)
| LoaderException (msg : string).

(** A value of [file_cache_metadata.json]. *)
Record FileMeta := mkFileMeta {
  fm_path : string;
  fm_file_id : string;
  fm_mtime_ns : Z;
  fm_size : Z;
  fm_cache_basename : string
}.

Record Unsupported := mkUnsupported {
  u_path : string;
  u_reason : string
}.

(** The dictionary written to [index_metadata.json] and returned by the
    build; [index_type] is absent in the not-built case. *)
Record Metadata := mkMetadata {
  total_chunks : Z;
  files_indexed : list FileMeta;
  embedding_model : string;
  index_type : option string;
  index_built : bool;
  unsupported_files : list Unsupported
}.

Inductive exn :=
| FileNotFoundError (msg : string)
| RuntimeError (msg : string)
| ValueError (msg : string)
| IndexError
| EmbedderError.

Inductive result (A : Type) :=
| Ok (a : A)
| Raise (e : exn).
Arguments Ok {A} a.
Arguments Raise {A} e.

(** Calls to collaborators and writes of artifacts, in program order. *)
Inductive event :=
| EvLoadCache (cache_basename : string)
| EvLoadText (path : string)
| EvChunkText (text : string)
| EvEncode (texts : list string)
| EvSaveCache (cache_basename : string)
| EvSaveFileMetadata
| EvWriteIndex
| EvWriteDocstore
| EvWriteMetadata
| EvSearch (k : Z).

(** A Python [dict] with string keys: insertion-ordered, assignment to a
    present key keeps its position. *)
Module PyDict.
Section Dict.
Context {V : Type}.

Fixpoint get (d : list (string * V)) (k : string) : option V :=
  match d with
  | [] => None
  | (k', v) :: d' => if String.eqb k' k then Some v else get d' k
  end.

Fixpoint set (d : list (string * V)) (k : string) (v : V)
    : list (string * V) :=
  match d with
  | [] => [(k, v)]
  | (k', v') :: d' =>
      if String.eqb k' k then (k', v) :: d' else (k', v') :: set d' k v
  end.

Definition values (d : list (string * V)) : list V := map snd d.
End Dict.
End PyDict.

(** ** ingest.py: discovery and text loading *)

Definition SUPPORTED_EXTENSIONS : list string := [".txt"; ".pdf"; ".docx"; ".doc"].

Definition str_in (x : string) (l : list string) : bool :=
  existsb (String.eqb x) l.

(** [discover_textbook_files]: [listing] is what [root.rglob] yields, already
    restricted to regular files, in that order. *)
Fixpoint discover_textbook_files (listing : list SourceFile)
    : list SourceFile * list SourceFile :=
  match listing with
  | [] => ([], [])
  | path :: rest =>
      let '(supported, unsupported) := discover_textbook_files rest in
      let ext := Py.lower (sf_suffix path) in
      if str_in ext SUPPORTED_EXTENSIONS then (path :: supported, unsupported)
      else (supported, path :: unsupported)
  end.

Section Loaders.
(** The four loaders of [ingest.py], by resolved path. *)
Variables _load_txt _load_pdf _load_docx _load_doc : string -> loaded.

Definition load_text_from_file (path : SourceFile)
    : option string * option string :=
  let ext := Py.lower (sf_suffix path) in
  let attempt :=
    if String.eqb ext ".txt" then Some (_load_txt (sf_path path))
    else if String.eqb ext ".pdf" then Some (_load_pdf (sf_path path))
    else if String.eqb ext ".docx" then Some (_load_docx (sf_path path))
    else if String.eqb ext ".doc" then Some (_load_doc (sf_path path))
    else None in
  match attempt with
  | None => (None, Some ("Extension " ++ ext ++ " not supported")%string)
  | Some (LoaderRuntimeError msg) => (None, Some msg)
  | Some (LoaderException msg) =>
      (None, Some ("Error reading file: " ++ msg)%string)
  | Some (Loaded text) =>
      if Py.is_empty text || Py.is_empty (Py.strip text)
      then (None, Some "File contains no extractable text")
      else (Some text, None)
  end.
End Loaders.

(* ===================================================================== *)
(** ** build_index.py *)
(* ===================================================================== *)

Section Tutor.
(** Rows of embedding matrices (float32 vectors of the model's dimension). *)
Context {vec : Type}.

(** Collaborators: the loaders, [hashlib.sha1(...).hexdigest()[:16]] of a
    resolved path, [SentenceTransformer.encode] ([None]: it raises) and the
    index search, which returns [indices[0]]. *)
Variables _load_txt _load_pdf _load_docx _load_doc : string -> loaded.
Variable _compute_file_id : string -> string.
Variable encode : list string -> option (matrix vec).
Variable search : matrix vec -> matrix vec -> Z -> list Z.

(** The artifacts under [INDEX_DIR]; [None] is an absent file.
    [chunk_files] and [emb_files] hold [<basename>_chunks.json] and
    [<basename>_embeddings.npy] of [FILE_CACHE_DIR]. *)
Record Store := mkStore {
  file_cache_metadata : option (list (string * FileMeta));
  chunk_files : gmap string (list Chunk);
  emb_files : gmap string (matrix vec);
  faiss_index : option (matrix vec);
  docstore : option (list Chunk);
  index_metadata : option Metadata
}.

Definition _load_existing_file_metadata (st : Store)
    : list (string * FileMeta) :=
  match file_cache_metadata st with
  | Some d => d
  | None => []
  end.

Definition _save_file_metadata (metadata : list (string * FileMeta))
    (st : Store) : Store :=
  mkStore (Some metadata) (chunk_files st) (emb_files st)
          (faiss_index st) (docstore st) (index_metadata st).

Definition _load_cached_chunks_and_embeddings (st : Store)
    (cache_basename : string) : result (list Chunk * matrix vec) :=
  match chunk_files st !! cache_basename, emb_files st !! cache_basename with
  | Some chunks, Some embeddings => Ok (chunks, embeddings)
  | _, _ => Raise (FileNotFoundError "Cache files not found")
  end.

Definition _save_cached_chunks_and_embeddings (cache_basename : string)
    (chunks : list Chunk) (embeddings : matrix vec) (st : Store) : Store :=
  mkStore (file_cache_metadata st)
          (<[cache_basename := chunks]> (chunk_files st))
          (<[cache_basename := embeddings]> (emb_files st))
          (faiss_index st) (docstore st) (index_metadata st).

Definition write_index (mat : matrix vec) (st : Store) : Store :=
  mkStore (file_cache_metadata st) (chunk_files st) (emb_files st)
          (Some mat) (docstore st) (index_metadata st).

Definition write_docstore (chunks : list Chunk) (st : Store) : Store :=
  mkStore (file_cache_metadata st) (chunk_files st) (emb_files st)
          (faiss_index st) (Some chunks) (index_metadata st).

Definition write_metadata (metadata : Metadata) (st : Store) : Store :=
  mkStore (file_cache_metadata st) (chunk_files st) (emb_files st)
          (faiss_index st) (docstore st) (Some metadata).

(** The variables of the loop over [textbooks], with the store and the
    event log. *)
Record BuildState := mkBuildState {
  bs_store : Store;
  bs_trace : list event;
  existing_meta : list (string * FileMeta);
  all_chunks : list Chunk;
  all_embeddings : list (matrix vec);
  runtime_unsupported : list Unsupported
}.

Definition log (ev : event) (bs : BuildState) : BuildState :=
  mkBuildState (bs_store bs) (bs_trace bs ++ [ev]) (existing_meta bs)
               (all_chunks bs) (all_embeddings bs) (runtime_unsupported bs).

Definition reuse (chunks : list Chunk) (emb : matrix vec) (bs : BuildState)
    : BuildState :=
  mkBuildState (bs_store bs) (bs_trace bs) (existing_meta bs)
               (all_chunks bs ++ chunks) (all_embeddings bs ++ [emb])
               (runtime_unsupported bs).

Definition record_unsupported (path_str reason : string) (bs : BuildState)
    : BuildState :=
  mkBuildState (bs_store bs) (bs_trace bs) (existing_meta bs)
               (all_chunks bs) (all_embeddings bs)
               (runtime_unsupported bs ++ [mkUnsupported path_str reason]).

(** Outcome of one iteration: go on with the next file, or an exception
    leaves the loop (and the build) in the given state. *)
Inductive step :=
| Next (bs : BuildState)
| Raised (e : exn) (bs : BuildState).

(** The fingerprint test on the record of [existing_meta], if any. *)
Definition fingerprint_matches (previous : option FileMeta)
    (path : SourceFile) : bool :=
  match previous with
  | Some prev =>
      (fm_mtime_ns prev =? st_mtime_ns path) && (fm_size prev =? st_size path)
  | None => false
  end.

(** First half of the loop body: returns [cache_exists]. *)
Definition try_cache (path : SourceFile) (bs : BuildState)
    : bool * BuildState :=
  let path_str := sf_path path in
  let cache_basename := _compute_file_id path_str in
  let previous := PyDict.get (existing_meta bs) path_str in
  if fingerprint_matches previous path then
    let bs := log (EvLoadCache cache_basename) bs in
    match _load_cached_chunks_and_embeddings (bs_store bs) cache_basename with
    | Ok (chunks, emb) => (true, reuse chunks emb bs)
    | Raise _ => (false, bs)
    end
  else (false, bs).

(** [reason or "unreadable"]. *)
Definition reason_or_unreadable (reason : option string) : string :=
  match reason with
  | Some r => if Py.is_empty r then "unreadable" else r
  | None => "unreadable"
  end.

Definition per_file_chunks_of (file_id path_str : string)
    (chunk_texts : list string) : list Chunk :=
  imap (fun idx chunk =>
          mkChunk (file_id ++ "::chunk_" ++ Py.str_of_nat idx)%string
                  chunk path_str idx) chunk_texts.

(** Second half of the loop body: the file is (re)computed. *)
Definition recompute (path : SourceFile) (bs : BuildState) : step :=
  let path_str := sf_path path in
  let file_id := _compute_file_id path_str in
  let cache_basename := file_id in
  let bs := log (EvLoadText path_str) bs in
  match load_text_from_file _load_txt _load_pdf _load_docx _load_doc path with
  | (None, reason) =>
      Next (record_unsupported path_str (reason_or_unreadable reason) bs)
  | (Some text, _) =>
      let bs := log (EvChunkText text) bs in
      let chunk_texts := chunk_text text CHUNK_SIZE_WORDS CHUNK_OVERLAP_WORDS in
      match chunk_texts with
      | [] => Next (record_unsupported path_str "no_chunks_after_split" bs)
      | _ :: _ =>
          let bs := log (EvEncode chunk_texts) bs in
          match encode chunk_texts with
          | None => Raised EmbedderError bs
          | Some embeddings =>
              let per_file_chunks :=
                per_file_chunks_of file_id path_str chunk_texts in
              let bs := log (EvSaveCache cache_basename) bs in
              Next (mkBuildState
                      (_save_cached_chunks_and_embeddings cache_basename
                         per_file_chunks embeddings (bs_store bs))
                      (bs_trace bs)
                      (PyDict.set (existing_meta bs) path_str
                         (mkFileMeta path_str file_id (st_mtime_ns path)
                            (st_size path) cache_basename))
                      (all_chunks bs ++ per_file_chunks)
                      (all_embeddings bs ++ [embeddings])
                      (runtime_unsupported bs))
          end
      end
  end.

Definition process_file (path : SourceFile) (bs : BuildState) : step :=
  let '(cache_exists, bs) := try_cache path bs in
  if cache_exists then Next bs else recompute path bs.

(** [for path in textbooks: ...] *)
Fixpoint build_loop (textbooks : list SourceFile) (bs : BuildState) : step :=
  match textbooks with
  | [] => Next bs
  | path :: rest =>
      match process_file path bs with
      | Next bs' => build_loop rest bs'
      | Raised e bs' => Raised e bs'
      end
  end.

Definition extension_unsupported (path : SourceFile) : Unsupported :=
  mkUnsupported (sf_path path) "extension_not_in_[txt,pdf,doc,docx]".

(** What follows the loop. *)
Definition finish_build (unsupported_by_extension : list SourceFile)
    (bs : BuildState) : Store * list event * result Metadata :=
  let st := _save_file_metadata (existing_meta bs) (bs_store bs) in
  let tr := bs_trace bs ++ [EvSaveFileMetadata] in
  let unsupported_files :=
    runtime_unsupported bs
    ++ map extension_unsupported unsupported_by_extension in
  match all_embeddings bs with
  | [] =>
      let metadata :=
        mkMetadata 0 [] EMBEDDING_MODEL_NAME None false unsupported_files in
      (write_metadata metadata st, tr ++ [EvWriteMetadata], Ok metadata)
  | _ :: _ =>
      let mat := concat (all_embeddings bs) in
      let st := write_index mat st in
      let st := write_docstore (all_chunks bs) st in
      let metadata :=
        mkMetadata (Py.len (all_chunks bs))
                   (PyDict.values (existing_meta bs))
                   EMBEDDING_MODEL_NAME (Some "IndexFlatIP_normalized")
                   true unsupported_files in
      (write_metadata metadata st,
       tr ++ [EvWriteIndex; EvWriteDocstore; EvWriteMetadata], Ok metadata)
  end.

Definition initial_build_state (st : Store) : BuildState :=
  mkBuildState st [] (_load_existing_file_metadata st) [] [] [].

(** [build_or_update_index]; [listing] is the content of [TEXTBOOKS_DIR]. *)
Definition build_or_update_index (listing : list SourceFile) (st : Store)
    : Store * list event * result Metadata :=
  let '(textbooks, unsupported_by_extension) :=
    discover_textbook_files listing in
  match build_loop textbooks (initial_build_state st) with
  | Raised e bs => (bs_store bs, bs_trace bs, Raise e)
  | Next bs => finish_build unsupported_by_extension bs
  end.

(* =================================================================== *)
(** ** rag_llm.py *)
(* =================================================================== *)

Record RAGTutor := mkRAGTutor {
  _docstore : list Chunk;
  _index : matrix vec
}.

(** [RAGTutor.__init__], up to the loading of the two models. *)
Definition RAGTutor_init (st : Store) : result RAGTutor :=
  match faiss_index st, docstore st with
  | Some index, Some ds =>
      match ds with
      | [] => Raise (RuntimeError
                "Vector index is empty. Add textbooks and rebuild the index.")
      | _ :: _ => Ok (mkRAGTutor ds index)
      end
  | _, _ =>
      Raise (RuntimeError
        "Vector index not found. Run `python -m malawian_educational_ai_tutor.build_index` first.")
  end.

(** The loop of [_retrieve_context] over the ranked candidates, with its
    three accumulators. *)
Fixpoint walk (ds : list Chunk) (total_chunks max_context_chars : Z)
    (idxs : list Z) (chosen_chunks : list Chunk)
    (context_parts : list string) (total_chars : Z)
    : result (list string * list Chunk) :=
  match idxs with
  | [] => Ok (context_parts, chosen_chunks)
  | idx :: rest =>
      if (idx <? 0) || (idx >=? total_chunks) then
        walk ds total_chunks max_context_chars rest
             chosen_chunks context_parts total_chars
      else
        match ds !! Z.to_nat idx with
        | None => Raise IndexError
        | Some meta =>
            let text := c_text meta in
            if Py.is_empty text then
              walk ds total_chunks max_context_chars rest
                   chosen_chunks context_parts total_chars
            else if (total_chars + Py.slen text >? max_context_chars)
                    && negb (match context_parts with [] => true | _ => false end)
            then Ok (context_parts, chosen_chunks)
            else
              walk ds total_chunks max_context_chars rest
                   (chosen_chunks ++ [meta]) (context_parts ++ [text])
                   (total_chars + Py.slen text)
        end
  end.

Definition paragraph_sep : string :=
  String (ascii_of_nat 10) (String (ascii_of_nat 10) EmptyString).

(** [RAGTutor._retrieve_context], with the calls it makes. *)
Definition _retrieve_context (self : RAGTutor) (question : string)
    : list event * result (string * list Chunk) :=
  if Py.is_empty (Py.strip question) then
    ([], Raise (ValueError "Question must not be empty"))
  else
    match encode [question] with
    | None => ([EvEncode [question]], Raise EmbedderError)
    | Some query_embedding =>
        let total_chunks := Py.len (_docstore self) in
        let k := Z.min TOP_K_CHUNKS total_chunks in
        if k <=? 0 then
          ([EvEncode [question]],
           Raise (RuntimeError "No chunks available in docstore."))
        else
          let idxs := search (_index self) query_embedding k in
          let tr := [EvEncode [question]; EvSearch k] in
          match walk (_docstore self) total_chunks MAX_CONTEXT_CHARS
                     idxs [] [] 0 with
          | Raise e => (tr, Raise e)
          | Ok (context_parts, chosen_chunks) =>
              (tr, Ok (Py.join paragraph_sep context_parts, chosen_chunks))
          end
    end.

End Tutor.


(* ===================================================================== *)
(** ** Vocabulary of the properties *)
(* ===================================================================== *)

Section Vocabulary.
Context {vec : Type}.
Variable encode : list string -> option (matrix vec).

(** Contract of the embedder: one row per input text. *)
Definition encode_rows_ok : Prop :=
  forall texts m, encode texts = Some m -> length m = length texts.

(** A (chunks, embeddings) pair as the build saves it: at least one
    chunk, and the matrix the embedder returns for the chunks' texts. *)
Definition entry_ok (chunks : list Chunk) (emb : matrix vec) : Prop :=
  chunks <> [] /\ encode (map c_text chunks) = Some emb.

(** Every complete entry of the per-file cache is such a pair. *)
Definition cache_ok (st : Store) : Prop :=
  forall b chunks emb,
    chunk_files st !! b = Some chunks ->
    emb_files st !! b = Some emb ->
    entry_ok chunks emb.

(** [v] is the row the embedder returns for chunk [c] in a batch made of
    the texts of [c]'s file. *)
Definition row_of_chunk (c : Chunk) (v : vec) : Prop :=
  exists chunks emb j,
    encode (map c_text chunks) = Some emb
    /\ chunks !! j = Some c /\ emb !! j = Some v.

(** Docstore and index are the concatenations, in one order, of the same
    per-file pairs. *)
Definition aligned (ds : list Chunk) (ix : matrix vec) : Prop :=
  exists blocks : list (list Chunk * matrix vec),
    Forall (fun b => entry_ok b.1 b.2) blocks
    /\ ds = concat (map fst blocks)
    /\ ix = concat (map snd blocks).

(** The accumulators of the build loop hold such pairs. *)
Definition acc_ok (bs : BuildState) : Prop :=
  exists blocks : list (list Chunk * matrix vec),
    Forall (fun b => entry_ok b.1 b.2) blocks
    /\ all_chunks bs = concat (map fst blocks)
    /\ all_embeddings bs = map snd blocks.

(** Events of the loop over the files: no write of the index, of the
    docstore or of either metadata file. *)
Definition loop_event (ev : event) : bool :=
  match ev with
  | EvLoadCache _ | EvLoadText _ | EvChunkText _ | EvEncode _
  | EvSaveCache _ => true
  | _ => false
  end.

(** What an iteration may change: it appends loop events and unsupported
    records, and leaves the four global artifacts alone. *)
Definition extends (bs bs' : BuildState (vec := vec)) : Prop :=
  (exists evs, bs_trace bs' = bs_trace bs ++ evs
               /\ forallb loop_event evs = true)
  /\ (exists more, runtime_unsupported bs'
                   = runtime_unsupported bs ++ more)
  /\ faiss_index (bs_store bs') = faiss_index (bs_store bs)
  /\ docstore (bs_store bs') = docstore (bs_store bs)
  /\ index_metadata (bs_store bs') = index_metadata (bs_store bs)
  /\ file_cache_metadata (bs_store bs') = file_cache_metadata (bs_store bs).
End Vocabulary.

(** The candidates the retrieval loop does not skip: index in range and a
    non-empty text, in ranked order. *)
Definition usable (ds : list Chunk) (idx : Z) : option Chunk :=
  if (idx <? 0) || (idx >=? Py.len ds) then None
  else match ds !! Z.to_nat idx with
       | Some meta => if Py.is_empty (c_text meta) then None else Some meta
       | None => None
       end.

Definition candidates (ds : list Chunk) (idxs : list Z) : list Chunk :=
  omap (usable ds) idxs.

(** Characters of the texts of a list of chunks. *)
Definition chars (l : list Chunk) : Z :=
  fold_right (fun c n => Py.slen (c_text c) + n) 0 l.

(* ===================================================================== *)
(** ** A small corpus used in the examples *)
(* ===================================================================== *)

Module Corpus.

(** Rows are natural numbers: the embedder maps a text to its length. *)
Definition txt (p : string) : loaded :=
  if String.eqb p "/books/A.txt" then Loaded "alpha beta gamma delta"
  else if String.eqb p "/books/B.txt" then Loaded "epsilon zeta"
  else Loaded "".

Definition no_loader (p : string) : loaded :=
  LoaderRuntimeError "Missing dependency".

Definition file_id (p : string) : string := p.

Definition encode (texts : list string) : option (matrix nat) :=
  Some (map String.length texts).

(** An embedder that fails on the batch of [A.txt]. *)
Definition encode_failing (texts : list string) : option (matrix nat) :=
  if str_in "alpha beta gamma delta" texts then None
  else Some (map String.length texts).

Definition search (index query : matrix nat) (k : Z) : list Z :=
  map Z.of_nat (seq 0 (Z.to_nat k)).

Definition A : SourceFile := mkSourceFile "/books/A.txt" ".txt" 1700 22.
Definition B : SourceFile := mkSourceFile "/books/B.txt" ".txt" 1701 12.
Definition E : SourceFile := mkSourceFile "/books/E.txt" ".txt" 1702 0.

Definition empty_store : Store (vec := nat) :=
  mkStore None ∅ ∅ None None None.

Definition build :=
  build_or_update_index txt no_loader no_loader no_loader file_id encode.

Definition build_failing :=
  build_or_update_index txt no_loader no_loader no_loader file_id
    encode_failing.

Definition process :=
  process_file txt no_loader no_loader no_loader file_id encode.

(** The store after a first build over [A.txt] alone, and after a second
    build once [A.txt] has been removed. *)
Definition after_first : Store := (build [A] empty_store).1.1.
Definition after_second : Store := (build [] after_first).1.1.

Definition chunk_A : Chunk :=
  mkChunk "/books/A.txt::chunk_0" "alpha beta gamma delta" "/books/A.txt" 0.
Definition chunk_B : Chunk :=
  mkChunk "/books/B.txt::chunk_0" "epsilon zeta" "/books/B.txt" 0.

(** A store holding only the chunk artifact of [A.txt]. *)
Definition partial_store : Store (vec := nat) :=
  mkStore None {[ "/books/A.txt" := [chunk_A] ]} ∅ None None None.


Definition loop :=
  build_loop txt no_loader no_loader no_loader file_id encode.

(** The loop state after the single file [E.txt], which has no text. *)
Definition bs_E : BuildState :=
  match loop [E] (initial_build_state empty_store) with
  | Next bs | Raised _ bs => bs
  end.

(** The outcome of a build over [A.txt] and [B.txt] from an empty store. *)
Definition store_AB : Store := (build [A; B] empty_store).1.1.
Definition trace_AB : list event := (build [A; B] empty_store).1.2.
Definition meta_AB : Metadata :=
  match (build [A; B] empty_store).2 with
  | Ok metadata => metadata
  | Raise _ => mkMetadata 0 [] "" None false []
  end.

(** A tutor over the two chunks, and retrieval with the toy collaborators. *)
Definition tutor : RAGTutor :=
  mkRAGTutor [chunk_A; chunk_B] [22%nat; 12%nat].

Definition retrieve := _retrieve_context encode search.

End Corpus.

(* ===================================================================== *)
(** ** The chunker's windows *)
(* ===================================================================== *)

(** Number of windows over [n] words when the start advances by [step]. *)
Definition chunk_count (n step : Z) : nat := Z.to_nat ((n + step - 1) / step).

(** The windows: window [k] starts at word [k * step] and spans [size]
    words, fewer at the end of the text. *)
Definition chunk_windows (words : list string) (size step : Z)
    : list (list string) :=
  map (fun k => Py.slice words (Z.of_nat k * step) (Z.of_nat k * step + size))
      (seq 0 (chunk_count (Py.len words) step)).

(** A word: at least one character, none of them whitespace. *)
Fixpoint no_space (s : string) : bool :=
  match s with
  | EmptyString => true
  | String c s' => negb (Py.is_space c) && no_space s'
  end.

Definition is_word (w : string) : Prop := w <> "" /\ no_space w = true.

(* ===================================================================== *)
(** ** Vocabulary for the build and the retrieval *)
(* ===================================================================== *)

(** The test of [discover_textbook_files] on one file. *)
Definition is_supported (path : SourceFile) : bool :=
  str_in (Py.lower (sf_suffix path)) SUPPORTED_EXTENSIONS.

(** Events a build makes when it reuses everything: cache loads, text
    extraction of the files it cannot read, and the final writes; no
    chunking, no embedding and no cache write. *)
Definition reuse_event (ev : event) : bool :=
  match ev with
  | EvChunkText _ | EvEncode _ | EvSaveCache _ | EvSearch _ => false
  | _ => true
  end.

Section MoreVocabulary.
Context {vec : Type}.
Variable _compute_file_id : string -> string.

(** Every chunk of the per-file cache has text. *)
Definition cache_texts_ok (st : Store (vec := vec)) : Prop :=
  forall b chunks,
    chunk_files st !! b = Some chunks ->
    Forall (fun c => c_text c <> "") chunks.

(** What the loop body reads about a file before it decides: its
    fingerprint record and its two cache artifacts. *)
Definition file_status (path : SourceFile) (bs : BuildState (vec := vec))
    : option FileMeta * option (list Chunk) * option (matrix vec) :=
  (PyDict.get (existing_meta bs) (sf_path path),
   chunk_files (bs_store bs) !! _compute_file_id (sf_path path),
   emb_files (bs_store bs) !! _compute_file_id (sf_path path)).

(** The status of a file that is reused from the cache. *)
Definition is_hit (path : SourceFile)
    (s : option FileMeta * option (list Chunk) * option (matrix vec))
    (chunks : list Chunk) (emb : matrix vec) : Prop :=
  fingerprint_matches s.1.1 path = true
  /\ s.1.2 = Some chunks /\ s.2 = Some emb.
End MoreVocabulary.

(* ===================================================================== *)
(** ** rag_llm.py: the prompt and the answer; api.py: the endpoint *)
(* ===================================================================== *)

Definition nl : string := String (ascii_of_nat 10) EmptyString.

Definition system_instructions : string :=
  ("You are a helpful Malawian Educational AI Tutor. "
   ++ "Answer the student's question using ONLY the information in the CONTEXT from the textbooks. "
   ++ "If the answer cannot be found in the context, explicitly say that the textbooks do not provide the answer. "
   ++ "Keep explanations clear and suitable for Malawian secondary school students.")%string.

(** [RAGTutor._build_prompt]. *)
Definition _build_prompt (question context : string) : string :=
  ("[SYSTEM]" ++ nl ++ system_instructions ++ nl ++ nl
   ++ "[CONTEXT]" ++ nl ++ context ++ nl ++ nl
   ++ "[QUESTION]" ++ nl ++ question ++ nl ++ nl
   ++ "[ANSWER]")%string.

Definition NOT_FOUND_ANSWER : string :=
  ("I could not find any relevant information in the textbooks for this question. "
   ++ "Please add more textbooks or rebuild the index.")%string.

(** What the endpoint gives back: the answer, an [HTTPException] it raises
    itself, or an exception it does not handle. *)
Inductive response :=
| AskResponse (answer : string)
| HTTPException (status_code : Z) (detail : string)
| Unhandled (e : exn).

Section Answer.
Context {vec : Type}.
Variable encode : list string -> option (matrix vec).
Variable search : matrix vec -> matrix vec -> Z -> list Z.
(** The language model on a prompt: tokenise, generate, decode the new
    tokens; it may raise. *)
Variable generate : string -> result string.
(** Whether the embedder's exception is a [RuntimeError], and its [str]. *)
Variable embedder_error_is_runtime : bool.
Variable embedder_error_str : string.

(** [RAGTutor.answer_question], with the retrieval events and the prompts
    given to the language model. *)
Definition answer_question (self : RAGTutor (vec := vec)) (question : string)
    : list event * list string * result string :=
  match _retrieve_context encode search self question with
  | (tr, Raise e) => (tr, [], Raise e)
  | (tr, Ok (context, _)) =>
      if Py.is_empty (Py.strip context) then (tr, [], Ok NOT_FOUND_ANSWER)
      else
        let prompt := _build_prompt question context in
        match generate prompt with
        | Ok answer => (tr, [prompt], Ok (Py.strip answer))
        | Raise e => (tr, [prompt], Raise e)
        end
  end.

(** [get_tutor] under [lru_cache(maxsize=1)]: the tutor is constructed on
    the first call that succeeds and kept; an exception is not cached. *)
Definition get_tutor (cached : option (RAGTutor (vec := vec)))
    (st : Store (vec := vec))
    : option (RAGTutor (vec := vec)) * result (RAGTutor (vec := vec)) :=
  match cached with
  | Some tutor => (cached, Ok tutor)
  | None =>
      match RAGTutor_init st with
      | Ok tutor => (Some tutor, Ok tutor)
      | Raise e => (None, Raise e)
      end
  end.

(** [except RuntimeError as exc: raise HTTPException(500, str(exc))]. *)
Definition on_exception (e : exn) : response :=
  match e with
  | RuntimeError msg => HTTPException 500 msg
  | EmbedderError =>
      if embedder_error_is_runtime then HTTPException 500 embedder_error_str
      else Unhandled e
  | _ => Unhandled e
  end.

(** The [/ask] endpoint: the cached tutor after the call, the prompts given
    to the language model, and the response. *)
Definition ask (cached : option (RAGTutor (vec := vec)))
    (st : Store (vec := vec)) (payload_question : string)
    : option (RAGTutor (vec := vec)) * list string * response :=
  let question := Py.strip payload_question in
  if Py.is_empty question then
    (cached, [], HTTPException 400 "Question must not be empty.")
  else
    match get_tutor cached st with
    | (cached', Raise e) => (cached', [], on_exception e)
    | (cached', Ok tutor) =>
        match answer_question tutor question with
        | (_, prompts, Ok answer) => (cached', prompts, AskResponse answer)
        | (_, prompts, Raise e) => (cached', prompts, on_exception e)
        end
    end.
End Answer.
(* ===================================================================== *)
(** * Properties of the chunker *)
(* ===================================================================== *)

Module ChunkerFacts.

Lemma split_aux_all_space s :
  Py.all_space s = true -> Py.split_aux s [] = [].
Proof.
  induction s as [|c s IH]; simpl; [done|].
  intros [Hc Hs]%andb_prop. rewrite Hc. auto.
Qed.

Lemma split_all_space s : Py.all_space s = true -> Py.split s = [].
Proof. apply split_aux_all_space. Qed.

Lemma len_nonneg {A} (l : list A) : 0 <= Py.len l.
Proof. unfold Py.len. lia. Qed.

Lemma len_cons {A} (x : A) l : Py.len (x :: l) = 1 + Py.len l.
Proof. unfold Py.len. simpl length. lia. Qed.

(** A window that starts at the first word and is at least as long as the
    text holds every word. *)
Lemma slice_whole {A} (l : list A) (stop : Z) :
  Py.len l <= stop -> Py.slice l 0 stop = l.
Proof.
  intros H. pose proof (len_nonneg l) as Hn. unfold Py.slice, Py.clamp.
  replace (0 <? 0) with false by (symmetry; apply Z.ltb_ge; lia).
  replace (stop <? 0) with false by (symmetry; apply Z.ltb_ge; lia).
  rewrite (Z.min_l 0) by lia. rewrite (Z.min_r stop) by lia.
  simpl drop. rewrite Z.sub_0_r. unfold Py.len. rewrite Nat2Z.id.
  apply firstn_all.
Qed.

(** A window of positive size that starts inside the text is not empty. *)
Lemma slice_inside_nonempty {A} (l : list A) (start size : Z) :
  0 <= start < Py.len l -> 1 <= size -> Py.slice l start (start + size) <> [].
Proof.
  intros Hs Hsz. unfold Py.slice, Py.clamp.
  replace (start <? 0) with false by (symmetry; apply Z.ltb_ge; lia).
  replace (start + size <? 0) with false by (symmetry; apply Z.ltb_ge; lia).
  rewrite (Z.min_l start) by lia.
  intros Hnil. apply (f_equal length) in Hnil.
  rewrite length_take, length_drop in Hnil. simpl in Hnil.
  unfold Py.len in *. lia.
Qed.

(** More fuel never changes a result. *)
Lemma chunk_loop_fuel_mono fuel fuel' words size step start chunks r :
  (fuel <= fuel')%nat ->
  chunk_loop fuel words size step start chunks = Some r ->
  chunk_loop fuel' words size step start chunks = Some r.
Proof.
  revert fuel' start chunks.
  induction fuel as [|fuel IH]; intros fuel' start chunks Hle; [done|].
  destruct fuel' as [|fuel']; [lia|]. simpl.
  destruct (start <? Py.len words); [|done].
  destruct (Py.slice words start (start + size)); [done|].
  apply IH. lia.
Qed.

(** The loop leaves before its fuel is spent as soon as the fuel exceeds the
    number of words right of [start]; it only appends to [chunks], at most
    one chunk per remaining word, and appends nothing exactly when the loop
    is left at once. *)
Lemma chunk_loop_spec fuel words size step start chunks :
  1 <= step ->
  (Z.to_nat (Py.len words - start) < fuel)%nat ->
  exists more,
    chunk_loop fuel words size step start chunks = Some (chunks ++ more)
    /\ (length more <= Z.to_nat (Py.len words - start))%nat
    /\ (more = [] <->
        Py.len words <= start \/ Py.slice words start (start + size) = []).
Proof.
  intros Hstep. revert start chunks.
  induction fuel as [|fuel IH]; intros start chunks Hfuel; [lia|].
  simpl. destruct (start <? Py.len words) eqn:Hlt.
  - apply Z.ltb_lt in Hlt.
    destruct (Py.slice words start (start + size)) as [|w ws] eqn:Hsl.
    + exists []. rewrite app_nil_r. split_and!; [done|simpl; lia|tauto].
    + destruct (IH (start + step) (chunks ++ [Py.join " " (w :: ws)]))
        as (more & Hrun & Hlen & _); [lia|].
      exists (Py.join " " (w :: ws) :: more).
      rewrite Hrun, <- app_assoc. simpl.
      split_and!; [done|lia|].
      split; [done|]. intros [?|?]; [lia|done].
  - apply Z.ltb_ge in Hlt. exists []. rewrite app_nil_r.
    split_and!; [done|simpl; lia|tauto].
Qed.

(** One iteration per word suffices for [chunk_text]. *)
Lemma chunk_text_fuel_enough text size overlap fuel :
  (length (Py.split text) < fuel)%nat ->
  chunk_text_fuel fuel text size overlap = Some (chunk_text text size overlap).
Proof.
  intros Hfuel. unfold chunk_text.
  assert (Hrun : forall f, (length (Py.split text) < f)%nat ->
            exists r, chunk_text_fuel f text size overlap = Some r
                      /\ (length r <= length (Py.split text))%nat).
  { intros f Hf. unfold chunk_text_fuel.
    destruct (Py.split text) as [|w ws] eqn:Hw; [exists []; done|].
    destruct (chunk_loop_spec f (w :: ws) size (Z.max 1 (size - overlap)) 0 [])
      as (more & Hrun & Hlen & _); [lia| |].
    - rewrite Z.sub_0_r. unfold Py.len. rewrite Nat2Z.id. done.
    - exists more. split; [done|].
      rewrite Z.sub_0_r in Hlen. unfold Py.len in Hlen.
      rewrite Nat2Z.id in Hlen. done. }
  destruct (Hrun (S (length (Py.split text)))) as (r & Hr & _); [lia|].
  rewrite Hr. simpl.
  unfold chunk_text_fuel in *.
  destruct (Py.split text) as [|w ws]; [done|].
  eapply chunk_loop_fuel_mono; [|exact Hr]. simpl in *. lia.
Qed.

Lemma chunk_text_length text size overlap :
  (length (chunk_text text size overlap) <= length (Py.split text))%nat.
Proof.
  pose proof (chunk_text_fuel_enough text size overlap
                (S (length (Py.split text))) ltac:(lia)) as Hrun.
  unfold chunk_text_fuel in Hrun.
  destruct (Py.split text) as [|w ws] eqn:Hw.
  - injection Hrun as <-. simpl. lia.
  - destruct (chunk_loop_spec (S (length (w :: ws))) (w :: ws) size
                (Z.max 1 (size - overlap)) 0 [])
      as (more & Hrun' & Hlen & _); [lia| |].
    + rewrite Z.sub_0_r. unfold Py.len. rewrite Nat2Z.id. lia.
    + rewrite Hrun' in Hrun. injection Hrun as <-.
      rewrite Z.sub_0_r in Hlen. unfold Py.len in Hlen.
      rewrite Nat2Z.id in Hlen. done.
Qed.

End ChunkerFacts.

(** One iteration of the loop, as the source writes it. *)
Lemma chunk_loop_unfold fuel words size step start chunks :
  chunk_loop (S fuel) words size step start chunks =
  if start <? Py.len words then
    match Py.slice words start (start + size) with
    | [] => Some chunks
    | _ :: _ =>
        chunk_loop fuel words size step (start + step)
          (chunks ++ [Py.join " " (Py.slice words start (start + size))])
    end
  else Some chunks.
Proof. reflexivity. Qed.

(* ===================================================================== *)
(** * The chunks as windows over the words *)
(* ===================================================================== *)

Module WindowFacts.

(** A slice with bounds [0 <= start <= stop] is a [take] of a [drop]. *)
Lemma slice_take_drop {A} (l : list A) (start stop : Z) :
  0 <= start <= stop ->
  Py.slice l start stop
  = take (Z.to_nat (stop - start)) (drop (Z.to_nat start) l).
Proof.
  intros [Hlo Hle]. unfold Py.slice, Py.clamp.
  replace (start <? 0) with false by (symmetry; apply Z.ltb_ge; lia).
  replace (stop <? 0) with false by (symmetry; apply Z.ltb_ge; lia).
  unfold Py.len.
  destruct (Z_le_gt_dec start (Z.of_nat (length l))) as [Hin|Hout].
  - rewrite (Z.min_l start) by lia.
    destruct (Z_le_gt_dec stop (Z.of_nat (length l))) as [Hin'|Hout'].
    + by rewrite (Z.min_l stop) by lia.
    + rewrite (Z.min_r stop) by lia.
      rewrite !take_ge; [done|rewrite length_drop; lia..].
  - rewrite (Z.min_r start), (Z.min_r stop) by lia.
    rewrite Z.sub_diag. simpl take.
    rewrite (drop_ge l (Z.to_nat start)) by lia. by rewrite take_nil.
Qed.

Lemma chunk_count_step n step start :
  1 <= step -> start < n ->
  chunk_count (n - start) step = S (chunk_count (n - (start + step)) step).
Proof.
  intros Hstep Hlt. unfold chunk_count.
  replace (n - start + step - 1) with ((n - start - 1) + 1 * step) by lia.
  replace (n - (start + step) + step - 1) with (n - start - 1) by lia.
  rewrite Z.div_add by lia.
  pose proof (Z.div_pos (n - start - 1) step ltac:(lia) ltac:(lia)). lia.
Qed.

Lemma chunk_count_done n step start :
  1 <= step -> n <= start -> chunk_count (n - start) step = 0%nat.
Proof.
  intros Hstep Hge. unfold chunk_count.
  destruct (Z_le_gt_dec 0 (n - start + step - 1)) as [Hnn|Hneg].
  - rewrite Z.div_small by lia. done.
  - pose proof (Z.div_lt_upper_bound (n - start + step - 1) step 0
                  ltac:(lia) ltac:(lia)). lia.
Qed.

(** The loop from [start] appends the joined windows that start at
    [start], [start + step], ... *)
Lemma chunk_loop_windows fuel words size step start chunks :
  1 <= step -> 1 <= size -> 0 <= start ->
  (Z.to_nat (Py.len words - start) < fuel)%nat ->
  chunk_loop fuel words size step start chunks
  = Some (chunks
          ++ map (fun k => Py.join " "
                     (Py.slice words (start + Z.of_nat k * step)
                        (start + Z.of_nat k * step + size)))
               (seq 0 (chunk_count (Py.len words - start) step))).
Proof.
  intros Hstep Hsize. revert start chunks.
  induction fuel as [|fuel IH]; intros start chunks Hstart Hfuel; [lia|].
  rewrite chunk_loop_unfold.
  destruct (start <? Py.len words) eqn:Hlt.
  - apply Z.ltb_lt in Hlt.
    pose proof (ChunkerFacts.slice_inside_nonempty words start size
                  ltac:(lia) Hsize) as Hne.
    destruct (Py.slice words start (start + size)) as [|w ws] eqn:Hsl;
      [done|].
    rewrite IH by lia.
    rewrite (chunk_count_step _ step start) by lia.
    rewrite <- app_assoc. do 2 f_equal. simpl.
    rewrite Z.add_0_r, Hsl. f_equal.
    rewrite <- seq_shift, map_map. apply map_ext. intros k.
    do 2 f_equal; lia.
  - apply Z.ltb_ge in Hlt.
    rewrite chunk_count_done by lia. simpl. by rewrite app_nil_r.
Qed.

(** [chunk_text] with a positive size, window by window. *)
Lemma chunk_text_unfold text size overlap :
  1 <= size ->
  chunk_text text size overlap
  = map (fun k => Py.join " "
                    (Py.slice (Py.split text)
                       (Z.of_nat k * Z.max 1 (size - overlap))
                       (Z.of_nat k * Z.max 1 (size - overlap) + size)))
        (seq 0 (chunk_count (Py.len (Py.split text))
                  (Z.max 1 (size - overlap)))).
Proof.
  intros Hsize. unfold chunk_text, chunk_text_fuel.
  destruct (Py.split text) as [|w ws] eqn:Hw.
  { change (Py.len []) with (0 - 0).
    rewrite chunk_count_done by lia. done. }
  rewrite chunk_loop_windows; [|lia|done|lia|].
  - simpl default. rewrite Z.sub_0_r. apply map_ext. intros k.
    by rewrite !Z.add_0_l.
  - rewrite Z.sub_0_r. unfold Py.len. rewrite Nat2Z.id. lia.
Qed.

End WindowFacts.

(** C5 (as amended).  The chunker returns no chunk for an empty or
    whitespace-only text.  For a text with at least one word and at most
    [chunk_size_words] words, the first chunk is the text's words joined by
    single spaces; it is the only chunk exactly when the word count is at
    most the step [max(1, chunk_size_words - overlap_words)]; and the chunks
    after it are the further windows, joined by single spaces: window [k]
    starts at word [k * step]. *)
Theorem chunk_text_short_input (text : string) (chunk_size_words overlap_words : Z) :
  (Py.all_space text = true ->
   chunk_text text chunk_size_words overlap_words = [])
  /\ (1 <= Py.len (Py.split text) <= chunk_size_words ->
      exists rest,
        chunk_text text chunk_size_words overlap_words
        = Py.join " " (Py.split text) :: rest
        /\ (rest = [] <->
            Py.len (Py.split text)
            <= Z.max 1 (chunk_size_words - overlap_words))
        /\ rest
           = map (Py.join " ")
               (drop 1 (chunk_windows (Py.split text) chunk_size_words
                          (Z.max 1 (chunk_size_words - overlap_words))))).
Proof.
  split.
  - intros Hsp. unfold chunk_text, chunk_text_fuel.
    rewrite (ChunkerFacts.split_all_space _ Hsp). reflexivity.
  - intros [Hlo Hhi].
    rewrite WindowFacts.chunk_text_unfold by lia. unfold chunk_windows.
    set (words := Py.split text) in *.
    set (step := Z.max 1 (chunk_size_words - overlap_words)).
    assert (Hstep : 1 <= step) by (unfold step; lia).
    set (window := fun k : nat =>
                     Py.slice words (Z.of_nat k * step)
                       (Z.of_nat k * step + chunk_size_words)).
    assert (Hcount : chunk_count (Py.len words) step
                     = S (chunk_count (Py.len words - (0 + step)) step)).
    { rewrite <- (WindowFacts.chunk_count_step (Py.len words) step 0) by lia.
      by rewrite Z.sub_0_r. }
    rewrite Hcount. cbn [seq map drop].
    exists (map (fun k => Py.join " " (window k))
              (seq 1 (chunk_count (Py.len words - (0 + step)) step))).
    split_and!.
    + f_equal. change (Z.of_nat 0 * step) with 0.
      by rewrite Z.add_0_l, ChunkerFacts.slice_whole.
    + split.
      * intros Hnil.
        destruct (Z_le_gt_dec (Py.len words) step) as [|Hgt]; [done|].
        rewrite (WindowFacts.chunk_count_step (Py.len words) step (0 + step))
          in Hnil by lia.
        done.
      * intros Hle. by rewrite WindowFacts.chunk_count_done by lia.
    + rewrite drop_0, map_map. done.
Qed.

(** C5, as stated, fails: three words with [chunk_size_words = 3] and
    [overlap_words = 1] give a second chunk, the window that starts at the
    third word. *)
Lemma chunk_text_short_input_two_chunks :
  Py.len (Py.split "a b c") <= 3
  /\ chunk_text "a b c" 3 1 = ["a b c"; "c"]
  /\ chunk_text "a b c" 3 1 <> [Py.join " " (Py.split "a b c")].
Proof. split; [|split]; vm_compute; congruence. Qed.

(** C9.  For every text, chunk size and overlap, the step is at least one
    word, each iteration that emits a chunk moves the window start forward
    by exactly that step, and the loop leaves within one iteration per word:
    every larger bound on the iterations gives the same chunks, of which
    there are at most as many as words. *)
Theorem chunk_text_terminates (text : string) (chunk_size_words overlap_words : Z) :
  let words := Py.split text in
  let step := Z.max 1 (chunk_size_words - overlap_words) in
  1 <= step
  /\ (forall fuel start chunks w ws,
        start < Py.len words ->
        Py.slice words start (start + chunk_size_words) = w :: ws ->
        chunk_loop (S fuel) words chunk_size_words step start chunks
        = chunk_loop fuel words chunk_size_words step (start + step)
            (chunks ++ [Py.join " " (w :: ws)]))
  /\ exists chunks,
       (forall fuel, (length words < fuel)%nat ->
          chunk_text_fuel fuel text chunk_size_words overlap_words = Some chunks)
       /\ chunk_text text chunk_size_words overlap_words = chunks
       /\ (length chunks <= length words)%nat.
Proof.
  intros words step. split_and!.
  - unfold step. lia.
  - intros fuel start chunks w ws Hlt Hsl. rewrite chunk_loop_unfold.
    apply Z.ltb_lt in Hlt. rewrite Hlt, Hsl. done.
  - exists (chunk_text text chunk_size_words overlap_words). split_and!.
    + intros fuel Hfuel. by apply ChunkerFacts.chunk_text_fuel_enough.
    + done.
    + apply ChunkerFacts.chunk_text_length.
Qed.

(* ===================================================================== *)
(** * Properties of text loading *)
(* ===================================================================== *)

Module TextFacts.

Lemma lstrip_all_space s : Py.all_space s = true -> Py.lstrip s = "".
Proof.
  induction s as [|c s IH]; simpl; [done|].
  intros [Hc Hs]%andb_prop. rewrite Hc. auto.
Qed.

Lemma lstrip_not_all_space s :
  Py.all_space s = false ->
  exists c s', Py.lstrip s = String c s' /\ Py.is_space c = false.
Proof.
  induction s as [|c s IH]; simpl; [done|].
  destruct (Py.is_space c) eqn:Hc; simpl; eauto.
Qed.

Lemma rstrip_head_nonspace c s :
  Py.is_space c = false -> Py.rstrip (String c s) <> "".
Proof. intros Hc. simpl. rewrite Hc. destruct (Py.rstrip s); done. Qed.

(** [not s.strip()] holds exactly for the empty and whitespace-only strings. *)
Lemma strip_empty_iff s :
  Py.is_empty (Py.strip s) = true <-> Py.all_space s = true.
Proof.
  unfold Py.strip. split.
  - intros He. destruct (Py.all_space s) eqn:Hs; [done|].
    destruct (lstrip_not_all_space s Hs) as (c & s' & Hl & Hc).
    rewrite Hl in He. pose proof (rstrip_head_nonspace c s' Hc) as Hne.
    destruct (Py.rstrip (String c s')); done.
  - intros Hs. rewrite (lstrip_all_space s Hs). done.
Qed.

Lemma split_aux_cur_nonempty s c cur : Py.split_aux s (c :: cur) <> [].
Proof.
  revert c cur. induction s as [|a s IH]; intros c cur; simpl; [done|].
  destruct (Py.is_space a); [done|apply IH].
Qed.

Lemma split_not_all_space s : Py.all_space s = false -> Py.split s <> [].
Proof.
  unfold Py.split. induction s as [|a s IH]; simpl; [done|].
  destruct (Py.is_space a); simpl; [done|].
  intros _. apply split_aux_cur_nonempty.
Qed.

(** A text with a word gives a chunk whenever the chunk size is positive. *)
Lemma chunk_text_nonempty text size overlap :
  Py.split text <> [] -> 1 <= size -> chunk_text text size overlap <> [].
Proof.
  intros Hw Hsz. unfold chunk_text, chunk_text_fuel.
  destruct (Py.split text) as [|w ws]; [done|].
  destruct (ChunkerFacts.chunk_loop_spec (S (length (w :: ws))) (w :: ws) size
              (Z.max 1 (size - overlap)) 0 [])
    as (more & Hrun & _ & Hnil); [lia| |].
  { rewrite Z.sub_0_r. unfold Py.len. rewrite Nat2Z.id. lia. }
  rewrite Hrun. simpl. rewrite Hnil. intros [Hle|Hsl].
  - rewrite ChunkerFacts.len_cons in Hle.
    pose proof (ChunkerFacts.len_nonneg ws). lia.
  - revert Hsl. apply ChunkerFacts.slice_inside_nonempty; [|done].
    rewrite ChunkerFacts.len_cons. pose proof (ChunkerFacts.len_nonneg ws). lia.
Qed.

Section Loading.
Variables _load_txt _load_pdf _load_docx _load_doc : string -> loaded.

(** A loaded text is never empty or whitespace-only. *)
Lemma load_text_some path text reason :
  load_text_from_file _load_txt _load_pdf _load_docx _load_doc path
  = (Some text, reason) ->
  Py.all_space text = false /\ reason = None.
Proof.
  unfold load_text_from_file. intros H.
  repeat case_match; simplify_eq; (split; [|done]);
    match goal with Hb : _ || _ = false |- _ =>
      apply orb_false_elim in Hb as [_ Hb] end;
    (destruct (Py.all_space text) eqn:Hs; [|done]);
    apply strip_empty_iff in Hs; congruence.
Qed.

(** Hence the chunker, called with the configured sizes, returns at least
    one chunk for it. *)
Lemma loaded_text_has_chunks path text reason :
  load_text_from_file _load_txt _load_pdf _load_docx _load_doc path
  = (Some text, reason) ->
  chunk_text text CHUNK_SIZE_WORDS CHUNK_OVERLAP_WORDS <> [].
Proof.
  intros [Hs _]%load_text_some.
  apply chunk_text_nonempty; [by apply split_not_all_space|done].
Qed.
End Loading.

End TextFacts.

(* ===================================================================== *)
(** * Properties of the index build *)
(* ===================================================================== *)

Module PyDictFacts.
Section Dict.
Context {V : Type}.

Lemma get_set_eq (d : list (string * V)) k v :
  PyDict.get (PyDict.set d k v) k = Some v.
Proof.
  induction d as [|[k' v'] d IH]; simpl.
  - by rewrite String.eqb_refl.
  - destruct (String.eqb k' k) eqn:Hk; simpl; rewrite Hk; done.
Qed.

Lemma get_set_ne (d : list (string * V)) k k' v :
  k <> k' -> PyDict.get (PyDict.set d k v) k' = PyDict.get d k'.
Proof.
  intros Hne. induction d as [|[k0 v0] d IH]; simpl.
  - destruct (String.eqb k k') eqn:Hk; [|done].
    apply String.eqb_eq in Hk. done.
  - destruct (String.eqb k0 k) eqn:Hk; simpl.
    + apply String.eqb_eq in Hk as ->.
      destruct (String.eqb k k') eqn:Hk'; [|done].
      apply String.eqb_eq in Hk'. done.
    + by rewrite IH.
Qed.
End Dict.
End PyDictFacts.

Section BuildFacts.
Context {vec : Type}.
Variables _load_txt _load_pdf _load_docx _load_doc : string -> loaded.
Variable _compute_file_id : string -> string.
Variable encode : list string -> option (matrix vec).
Implicit Types (bs : BuildState (vec := vec)) (st : Store (vec := vec)).

Local Abbreviation load_text :=
  (load_text_from_file _load_txt _load_pdf _load_docx _load_doc).
Local Abbreviation try_cache' := (try_cache _compute_file_id).
Local Abbreviation recompute' :=
  (recompute _load_txt _load_pdf _load_docx _load_doc _compute_file_id encode).
Local Abbreviation process :=
  (process_file _load_txt _load_pdf _load_docx _load_doc _compute_file_id
     encode).
Local Abbreviation loop :=
  (build_loop _load_txt _load_pdf _load_docx _load_doc _compute_file_id
     encode).
Local Abbreviation build :=
  (build_or_update_index _load_txt _load_pdf _load_docx _load_doc
     _compute_file_id encode).

Lemma per_file_chunks_texts file_id path_str chunk_texts :
  map c_text (per_file_chunks_of file_id path_str chunk_texts) = chunk_texts.
Proof.
  unfold per_file_chunks_of.
  change (map c_text) with (fmap (M := list) c_text).
  rewrite fmap_imap. simpl.
  rewrite (imap_const (fun x : string => x)). apply list_fmap_id.
Qed.

Lemma per_file_chunks_nonempty file_id path_str chunk_texts :
  chunk_texts <> [] ->
  per_file_chunks_of file_id path_str chunk_texts <> [].
Proof. destruct chunk_texts; done. Qed.

Lemma extends_refl (bs : BuildState (vec := vec)) : extends bs bs.
Proof.
  unfold extends. split_and!; try done.
  - exists []. by rewrite app_nil_r.
  - exists []. by rewrite app_nil_r.
Qed.

Lemma extends_trans (bs1 bs2 bs3 : BuildState (vec := vec)) :
  extends bs1 bs2 -> extends bs2 bs3 -> extends bs1 bs3.
Proof.
  intros ((e1 & He1 & Hl1) & (m1 & Hm1) & ? & ? & ? & ?)
         ((e2 & He2 & Hl2) & (m2 & Hm2) & ? & ? & ? & ?).
  unfold extends. split_and!; try congruence.
  - exists (e1 ++ e2). rewrite He2, He1, app_assoc. split; [done|].
    rewrite forallb_app, Hl1, Hl2. done.
  - exists (m1 ++ m2). by rewrite Hm2, Hm1, app_assoc.
Qed.

Lemma extends_log ev (bs : BuildState (vec := vec)) :
  loop_event ev = true -> extends bs (log ev bs).
Proof.
  intros Hev. unfold extends. split_and!; try done.
  - exists [ev]. simpl. by rewrite Hev.
  - exists []. by rewrite app_nil_r.
Qed.

Lemma acc_ok_add (bs bs' : BuildState) chunks emb :
  acc_ok encode bs -> entry_ok encode chunks emb ->
  all_chunks bs' = all_chunks bs ++ chunks ->
  all_embeddings bs' = all_embeddings bs ++ [emb] ->
  acc_ok encode bs'.
Proof.
  intros (blocks & Hok & Hc & He) Hentry Hc' He'.
  exists (blocks ++ [(chunks, emb)]). split_and!.
  - apply Forall_app. split; [done|]. by apply Forall_singleton.
  - rewrite Hc', Hc, map_app, concat_app. simpl. by rewrite app_nil_r.
  - rewrite He', He, map_app. done.
Qed.

Lemma acc_ok_same (bs bs' : BuildState) :
  acc_ok encode bs ->
  all_chunks bs' = all_chunks bs ->
  all_embeddings bs' = all_embeddings bs ->
  acc_ok encode bs'.
Proof.
  intros (blocks & Hok & Hc & He) Hc' He'.
  exists blocks. split_and!; congruence.
Qed.

Lemma cache_ok_save (st : Store) b chunks emb :
  cache_ok encode st -> entry_ok encode chunks emb ->
  cache_ok encode (_save_cached_chunks_and_embeddings b chunks emb st).
Proof.
  intros Hok Hentry b' chunks' emb'. simpl.
  destruct (decide (b = b')) as [->|Hne].
  - rewrite !lookup_insert_eq. by intros [= <-] [= <-].
  - rewrite !lookup_insert_ne by done. apply Hok.
Qed.

(** Closes a goal [extends bs bs'] once [bs'] is an explicit state. *)
Ltac solve_extends :=
  unfold extends; simpl; split_and!; try done;
  [ rewrite <- ?app_assoc; eexists; split; [reflexivity|done]
  | first [ by eexists | exists []; by rewrite app_nil_r ] ].

Ltac inv_step := first [ done | by eapply acc_ok_same | solve_extends ].

(** The first half of the body either reuses a complete cache entry or
    changes nothing but the log. *)
Lemma try_cache_cases path bs :
  let b := _compute_file_id (sf_path path) in
  (exists chunks emb,
      fingerprint_matches (PyDict.get (existing_meta bs) (sf_path path)) path
      = true
      /\ chunk_files (bs_store bs) !! b = Some chunks
      /\ emb_files (bs_store bs) !! b = Some emb
      /\ try_cache' path bs
         = (true, reuse chunks emb (log (EvLoadCache b) bs)))
  \/ (fingerprint_matches (PyDict.get (existing_meta bs) (sf_path path)) path
      = true
      /\ (chunk_files (bs_store bs) !! b = None
          \/ emb_files (bs_store bs) !! b = None)
      /\ try_cache' path bs = (false, log (EvLoadCache b) bs))
  \/ (fingerprint_matches (PyDict.get (existing_meta bs) (sf_path path)) path
      = false
      /\ try_cache' path bs = (false, bs)).
Proof.
  intros b. unfold try_cache, _load_cached_chunks_and_embeddings.
  fold b. simpl.
  destruct (fingerprint_matches _ path); [|by right; right].
  destruct (chunk_files (bs_store bs) !! b) as [chunks|] eqn:Hc;
    [|right; left; eauto].
  destruct (emb_files (bs_store bs) !! b) as [emb|] eqn:He;
    [|right; left; eauto].
  left. exists chunks, emb. done.
Qed.

Lemma try_cache_inv path bs :
  cache_ok encode (bs_store bs) -> acc_ok encode bs ->
  cache_ok encode (bs_store (try_cache' path bs).2)
  /\ acc_ok encode (try_cache' path bs).2
  /\ extends bs (try_cache' path bs).2
  /\ existing_meta (try_cache' path bs).2 = existing_meta bs
  /\ bs_store (try_cache' path bs).2 = bs_store bs.
Proof.
  intros Hcache Hacc.
  destruct (try_cache_cases path bs)
    as [(chunks & emb & _ & Hc & He & ->)|[(_ & _ & ->)|(_ & ->)]]; simpl.
  - split_and!;
      first [ done | by eapply (acc_ok_add bs); eauto | solve_extends ].
  - split_and!; inv_step.
  - split_and!; first [ done | apply extends_refl ].
Qed.

Lemma recompute_inv path bs :
  cache_ok encode (bs_store bs) -> acc_ok encode bs ->
  match recompute' path bs with
  | Next bs' =>
      cache_ok encode (bs_store bs') /\ acc_ok encode bs' /\ extends bs bs'
  | Raised e bs' =>
      e = EmbedderError /\ cache_ok encode (bs_store bs') /\ extends bs bs'
  end.
Proof.
  intros Hcache Hacc. unfold recompute.
  destruct (load_text path) as [[text|] reason] eqn:Hload.
  - destruct (chunk_text text CHUNK_SIZE_WORDS CHUNK_OVERLAP_WORDS)
      as [|t ts] eqn:Hchunks.
    + split_and!; inv_step.
    + destruct (encode (t :: ts)) as [embeddings|] eqn:Henc.
      * assert (Hentry : entry_ok encode
                  (per_file_chunks_of (_compute_file_id (sf_path path))
                     (sf_path path) (t :: ts)) embeddings).
        { split; [by apply per_file_chunks_nonempty|].
          by rewrite per_file_chunks_texts. }
        split_and!;
          first [ by apply cache_ok_save
                | by eapply (acc_ok_add bs); eauto
                | solve_extends ].
      * split_and!; inv_step.
  - split_and!; inv_step.
Qed.

Lemma process_file_inv path bs :
  cache_ok encode (bs_store bs) -> acc_ok encode bs ->
  match process path bs with
  | Next bs' =>
      cache_ok encode (bs_store bs') /\ acc_ok encode bs' /\ extends bs bs'
  | Raised e bs' =>
      e = EmbedderError /\ cache_ok encode (bs_store bs') /\ extends bs bs'
  end.
Proof.
  intros Hcache Hacc. unfold process_file.
  destruct (try_cache_inv path bs Hcache Hacc)
    as (Hc1 & Ha1 & He1 & _ & _).
  destruct (try_cache' path bs) as [[|] bs1]; simpl in *; [done|].
  pose proof (recompute_inv path bs1 Hc1 Ha1) as Hrec.
  destruct (recompute' path bs1) as [bs'|e bs'];
    destruct Hrec as (? & ? & ?);
    split_and!; first [ done | by eapply extends_trans ].
Qed.

Lemma build_loop_inv textbooks bs :
  cache_ok encode (bs_store bs) -> acc_ok encode bs ->
  match loop textbooks bs with
  | Next bs' =>
      cache_ok encode (bs_store bs') /\ acc_ok encode bs' /\ extends bs bs'
  | Raised e bs' =>
      e = EmbedderError /\ cache_ok encode (bs_store bs') /\ extends bs bs'
  end.
Proof.
  revert bs. induction textbooks as [|path rest IH]; intros bs Hcache Hacc.
  - simpl. split_and!; first [ done | apply extends_refl ].
  - simpl. pose proof (process_file_inv path bs Hcache Hacc) as Hstep.
    destruct (process path bs) as [bs1|e bs1]; [|done].
    destruct Hstep as (Hc1 & Ha1 & He1).
    specialize (IH bs1 Hc1 Ha1).
    destruct (loop rest bs1) as [bs'|e bs'];
      destruct IH as (? & ? & ?);
      split_and!; first [ done | by eapply extends_trans ].
Qed.

Lemma acc_ok_initial (st : Store) : acc_ok encode (initial_build_state st).
Proof. exists []. split_and!; done. Qed.

(** The cache invariant holds for an empty cache and survives every build,
    whether it returns or raises. *)
Lemma cache_ok_empty fm ix ds im :
  cache_ok encode (mkStore fm ∅ ∅ ix ds im).
Proof. intros b chunks emb. simpl. by rewrite lookup_empty. Qed.

Lemma build_preserves_cache_ok listing st :
  cache_ok encode st -> cache_ok encode (build listing st).1.1.
Proof.
  intros Hcache. unfold build_or_update_index.
  destruct (discover_textbook_files listing) as [textbooks unsup].
  pose proof (build_loop_inv textbooks (initial_build_state st) Hcache
                (acc_ok_initial st)) as Hinv.
  destruct (loop textbooks (initial_build_state st)) as [bs|e bs].
  - destruct Hinv as (Hc & _ & _). unfold finish_build.
    destruct (all_embeddings bs); simpl; exact Hc.
  - destruct Hinv as (_ & Hc & _). exact Hc.
Qed.

(** Alignment, row by row. *)
Lemma aligned_rows ds ix :
  encode_rows_ok encode -> aligned encode ds ix ->
  length ds = length ix
  /\ forall i c, ds !! i = Some c ->
       exists v, ix !! i = Some v /\ row_of_chunk encode c v.
Proof.
  intros Hrows (blocks & Hok & -> & ->).
  induction Hok as [|[cs e] blocks [Hne Henc] Hok IH]; simpl in *; [done|].
  destruct IH as [IHlen IHrow].
  assert (Hlen : length e = length cs).
  { rewrite (Hrows _ _ Henc). by rewrite length_map. }
  split; [rewrite !length_app; lia|].
  intros i c Hi.
  destruct (decide (i < length cs)%nat) as [Hlt|Hge].
  - rewrite lookup_app_l in Hi by done.
    destruct (lookup_lt_is_Some_2 e i) as [v Hv]; [lia|].
    exists v. rewrite lookup_app_l by lia. split; [done|].
    exists cs, e, i. done.
  - rewrite lookup_app_r in Hi by lia.
    destruct (IHrow _ _ Hi) as (v & Hv & Hrow).
    exists v. rewrite lookup_app_r by lia. rewrite Hlen. done.
Qed.

(** An iteration only appends to the log and to the unsupported list. *)
Lemma process_file_extends path bs :
  match process path bs with
  | Next bs' | Raised _ bs' => extends bs bs'
  end.
Proof.
  unfold process_file.
  destruct (try_cache_cases path bs)
    as [(chunks & emb & _ & _ & _ & ->)|[(_ & _ & ->)|(_ & ->)]]; simpl.
  - solve_extends.
  - unfold recompute. repeat case_match; simplify_eq; solve_extends.
  - unfold recompute. repeat case_match; simplify_eq; solve_extends.
Qed.

Lemma build_loop_extends textbooks bs :
  match loop textbooks bs with
  | Next bs' | Raised _ bs' => extends bs bs'
  end.
Proof.
  revert bs. induction textbooks as [|path rest IH]; intros bs; simpl.
  - apply extends_refl.
  - pose proof (process_file_extends path bs) as Hstep.
    destruct (process path bs) as [bs1|e bs1]; [|done].
    specialize (IH bs1).
    destruct (loop rest bs1); by eapply extends_trans.
Qed.

Lemma build_loop_app before after bs :
  loop (before ++ after) bs =
  match loop before bs with
  | Next bs1 => loop after bs1
  | Raised e bs1 => Raised e bs1
  end.
Proof.
  revert bs. induction before as [|path before IH]; intros bs; simpl; [done|].
  destruct (process path bs); [apply IH|done].
Qed.

(** Without a cache hit the iteration is the recomputation. *)
Lemma process_file_miss path bs :
  (try_cache' path bs).1 = false ->
  process path bs = recompute' path (try_cache' path bs).2.
Proof.
  unfold process_file. by destruct (try_cache' path bs) as [[|] ?].
Qed.

(** Only the embedder makes an iteration raise. *)
Lemma process_file_raises path bs e bs' :
  process path bs = Raised e bs' ->
  e = EmbedderError /\ exists texts, encode texts = None.
Proof.
  unfold process_file, recompute.
  repeat case_match; intros; simplify_eq; eauto.
Qed.

Lemma build_loop_raises textbooks bs e bs' :
  loop textbooks bs = Raised e bs' ->
  e = EmbedderError /\ exists texts, encode texts = None.
Proof.
  revert bs. induction textbooks as [|path rest IH]; intros bs; simpl; [done|].
  destruct (process path bs) as [bs1|e1 bs1] eqn:Hstep.
  - apply IH.
  - intros [= -> ->]. by eapply process_file_raises.
Qed.

Lemma finish_build_ok unsup bs :
  exists st' tr meta, finish_build unsup bs = (st', tr, Ok meta).
Proof. unfold finish_build. destruct (all_embeddings bs); eauto. Qed.

End BuildFacts.

(* ===================================================================== *)
(** * The index build: cache, fingerprints, failures, alignment *)
(* ===================================================================== *)

Section BuildClaims.
Context {vec : Type}.
Variables _load_txt _load_pdf _load_docx _load_doc : string -> loaded.
Variable _compute_file_id : string -> string.
Variable encode : list string -> option (matrix vec).
Implicit Types (bs : BuildState (vec := vec)) (st : Store (vec := vec)).

Local Abbreviation load_text :=
  (load_text_from_file _load_txt _load_pdf _load_docx _load_doc).
Local Abbreviation try_cache' := (try_cache _compute_file_id).
Local Abbreviation recompute' :=
  (recompute _load_txt _load_pdf _load_docx _load_doc _compute_file_id encode).
Local Abbreviation process :=
  (process_file _load_txt _load_pdf _load_docx _load_doc _compute_file_id
     encode).
Local Abbreviation loop :=
  (build_loop _load_txt _load_pdf _load_docx _load_doc _compute_file_id
     encode).
Local Abbreviation build :=
  (build_or_update_index _load_txt _load_pdf _load_docx _load_doc
     _compute_file_id encode).

(** C6.  Loading from the per-file cache raises [FileNotFoundError] as soon
    as one of the two artifacts of the basename is absent, whether or not
    the other one is there: no artifact is returned, and the build loop then
    takes nothing from the cache for that file. *)
Theorem load_cache_partial_is_miss st (cache_basename : string) :
  chunk_files st !! cache_basename = None
  \/ emb_files st !! cache_basename = None ->
  _load_cached_chunks_and_embeddings st cache_basename
  = Raise (FileNotFoundError "Cache files not found")
  /\ forall path bs,
       bs_store bs = st ->
       _compute_file_id (sf_path path) = cache_basename ->
       (try_cache' path bs).1 = false
       /\ all_chunks (try_cache' path bs).2 = all_chunks bs
       /\ all_embeddings (try_cache' path bs).2 = all_embeddings bs.
Proof.
  intros Hmiss. split.
  - unfold _load_cached_chunks_and_embeddings.
    destruct Hmiss as [-> | ->]; [done|]. by destruct (chunk_files st !! _).
  - intros path bs <- <-.
    destruct (try_cache_cases _compute_file_id path bs)
      as [(chunks & emb & _ & Hc & He & _)|[(_ & _ & ->)|(_ & ->)]];
      [|done|done].
    destruct Hmiss; congruence.
Qed.

(** C2 (as amended).  A file is treated as unchanged exactly when
    [existing_meta] holds a record for its path whose [mtime_ns] and [size]
    equal the current ones.  An unchanged file with both cache artifacts is
    reused verbatim: the only call is the cache load.  A file with no
    matching record goes to recomputation, which starts with text
    extraction; when that yields text, the chunker and then the embedder are
    called on it, and when the embedder returns, the new pair is saved,
    appended and the fingerprint record is replaced. *)
Theorem fingerprint_reuse_or_recompute (path : SourceFile) bs :
  let previous := PyDict.get (existing_meta bs) (sf_path path) in
  let b := _compute_file_id (sf_path path) in
  (fingerprint_matches previous path = true <->
   exists prev, previous = Some prev
                /\ fm_mtime_ns prev = st_mtime_ns path
                /\ fm_size prev = st_size path)
  /\ (forall chunks emb,
        fingerprint_matches previous path = true ->
        chunk_files (bs_store bs) !! b = Some chunks ->
        emb_files (bs_store bs) !! b = Some emb ->
        exists bs',
          process path bs = Next bs'
          /\ bs_trace bs' = bs_trace bs ++ [EvLoadCache b]
          /\ all_chunks bs' = all_chunks bs ++ chunks
          /\ all_embeddings bs' = all_embeddings bs ++ [emb]
          /\ bs_store bs' = bs_store bs
          /\ existing_meta bs' = existing_meta bs)
  /\ (fingerprint_matches previous path = false ->
      process path bs = recompute' path bs
      /\ forall text reason,
           load_text path = (Some text, reason) ->
           let texts := chunk_text text CHUNK_SIZE_WORDS CHUNK_OVERLAP_WORDS in
           match encode texts with
           | None =>
               exists bs',
                 process path bs = Raised EmbedderError bs'
                 /\ bs_trace bs'
                    = bs_trace bs ++ [EvLoadText (sf_path path);
                                      EvChunkText text; EvEncode texts]
           | Some emb =>
               exists bs',
                 process path bs = Next bs'
                 /\ bs_trace bs'
                    = bs_trace bs ++ [EvLoadText (sf_path path);
                                      EvChunkText text; EvEncode texts;
                                      EvSaveCache b]
                 /\ all_chunks bs'
                    = all_chunks bs
                      ++ per_file_chunks_of b (sf_path path) texts
                 /\ all_embeddings bs' = all_embeddings bs ++ [emb]
                 /\ chunk_files (bs_store bs') !! b
                    = Some (per_file_chunks_of b (sf_path path) texts)
                 /\ emb_files (bs_store bs') !! b = Some emb
                 /\ PyDict.get (existing_meta bs') (sf_path path)
                    = Some (mkFileMeta (sf_path path) b (st_mtime_ns path)
                              (st_size path) b)
           end).
Proof.
  intros previous b. split_and!.
  - unfold fingerprint_matches. destruct previous as [prev|].
    + rewrite andb_true_iff, !Z.eqb_eq. split.
      * intros [? ?]. by exists prev.
      * intros (? & [= <-] & ? & ?). done.
    + split; [done|]. intros (? & ? & _). done.
  - intros chunks emb Hfp Hc He.
    unfold process_file, try_cache, _load_cached_chunks_and_embeddings.
    fold previous b. rewrite Hfp. simpl. rewrite Hc, He. simpl.
    eexists. split_and!; done.
  - intros Hfp. unfold process_file at 1, try_cache.
    fold previous. rewrite Hfp. split; [done|].
    intros text reason Hload.
    pose proof (TextFacts.loaded_text_has_chunks _ _ _ _ _ _ _ Hload) as Hne.
    unfold process_file, try_cache. fold previous. rewrite Hfp.
    unfold recompute. rewrite Hload. fold b.
    destruct (chunk_text text CHUNK_SIZE_WORDS CHUNK_OVERLAP_WORDS)
      as [|t ts]; [done|].
    destruct (encode (t :: ts)) as [emb|].
    + eexists. split; [done|]. simpl. rewrite <- !app_assoc.
      split_and!; try done.
      * apply lookup_insert_eq.
      * apply lookup_insert_eq.
      * apply PyDictFacts.get_set_eq.
    + eexists. split; [done|]. simpl. by rewrite <- !app_assoc.
Qed.

(** C4 (as amended).  A file whose text cannot be extracted does not stop
    the build: the iteration appends one record with the reason to the
    unsupported list, changes nothing else but the log, and the loop goes on
    with the next file; the record is in the metadata the build returns; and
    a build whose embedder never fails always returns metadata.  A failure
    of the embedder is not caught: the iteration, the loop and the build
    raise it, and the index metadata is not written. *)
Theorem extraction_failure_isolated :
  (forall (path : SourceFile) bs reason,
      load_text path = (None, reason) ->
      (try_cache' path bs).1 = false ->
      exists bs',
        process path bs = Next bs'
        /\ runtime_unsupported bs'
           = runtime_unsupported bs
             ++ [mkUnsupported (sf_path path) (reason_or_unreadable reason)]
        /\ all_chunks bs' = all_chunks bs
        /\ all_embeddings bs' = all_embeddings bs
        /\ bs_store bs' = bs_store bs
        /\ existing_meta bs' = existing_meta bs
        /\ forall rest, loop (path :: rest) bs = loop rest bs')
  /\ (forall listing st before path after unsup bs1 reason st' tr meta,
        discover_textbook_files listing = (before ++ path :: after, unsup) ->
        loop before (initial_build_state st) = Next bs1 ->
        load_text path = (None, reason) ->
        (try_cache' path bs1).1 = false ->
        build listing st = (st', tr, Ok meta) ->
        In (mkUnsupported (sf_path path) (reason_or_unreadable reason))
           (unsupported_files meta))
  /\ (forall listing st,
        (forall texts, encode texts <> None) ->
        exists st' tr meta, build listing st = (st', tr, Ok meta))
  /\ (forall (path : SourceFile) bs text reason,
        load_text path = (Some text, reason) ->
        (try_cache' path bs).1 = false ->
        encode (chunk_text text CHUNK_SIZE_WORDS CHUNK_OVERLAP_WORDS) = None ->
        exists bs',
          process path bs = Raised EmbedderError bs'
          /\ forall rest, loop (path :: rest) bs = Raised EmbedderError bs')
  /\ (forall listing st textbooks unsup e bs,
        discover_textbook_files listing = (textbooks, unsup) ->
        loop textbooks (initial_build_state st) = Raised e bs ->
        build listing st = (bs_store bs, bs_trace bs, Raise e)
        /\ e = EmbedderError
        /\ index_metadata (bs_store bs) = index_metadata st
        /\ file_cache_metadata (bs_store bs) = file_cache_metadata st).
Proof.
  split_and!.
  - intros path bs reason Hload Hmiss.
    pose proof (process_file_miss _load_txt _load_pdf _load_docx _load_doc
                  _compute_file_id encode path bs Hmiss) as Hstep.
    unfold recompute in Hstep. rewrite Hload in Hstep.
    eexists. split; [exact Hstep|].
    destruct (try_cache_cases _compute_file_id path bs)
      as [(chunks & emb & _ & _ & _ & Htc)|[(_ & _ & Htc)|(_ & Htc)]];
      rewrite Htc in *; [done| |];
      (split_and!; try done); intros rest; simpl; by rewrite Hstep.
  - intros listing st before path after unsup bs1 reason st' tr meta
           Hdisc Hbefore Hload Hmiss Hbuild.
    unfold build_or_update_index in Hbuild. rewrite Hdisc in Hbuild.
    rewrite build_loop_app, Hbefore in Hbuild. simpl in Hbuild.
    assert (exists bs2, process path bs1 = Next bs2
              /\ In (mkUnsupported (sf_path path) (reason_or_unreadable reason))
                    (runtime_unsupported bs2)) as (bs2 & Hstep & Hin).
    { unfold process_file.
      destruct (try_cache_cases _compute_file_id path bs1)
        as [(chunks & emb & _ & _ & _ & Htc)|[(_ & _ & Htc)|(_ & Htc)]];
        rewrite Htc in *; [done| |];
        unfold recompute; rewrite Hload; eexists; (split; [done|]);
        simpl; apply in_or_app; right; by left. }
    rewrite Hstep in Hbuild.
    pose proof (build_loop_extends _load_txt _load_pdf _load_docx _load_doc
                  _compute_file_id encode after bs2) as Hext.
    destruct (loop after bs2) as [bs3|e bs3]; [|done].
    destruct Hext as (_ & (more & Hmore) & _).
    unfold finish_build in Hbuild.
    destruct (all_embeddings bs3); injection Hbuild as <- <- <-; simpl;
      rewrite Hmore; apply in_or_app; left; apply in_or_app; by left.
  - intros listing st Henc. unfold build_or_update_index.
    destruct (discover_textbook_files listing) as [textbooks unsup].
    destruct (loop textbooks (initial_build_state st)) as [bs|e bs] eqn:Hloop.
    + apply finish_build_ok.
    + apply build_loop_raises in Hloop as (_ & texts & Hnone).
      by destruct (Henc texts).
  - intros path bs text reason Hload Hmiss Henc.
    pose proof (TextFacts.loaded_text_has_chunks _ _ _ _ _ _ _ Hload) as Hne.
    pose proof (process_file_miss _load_txt _load_pdf _load_docx _load_doc
                  _compute_file_id encode path bs Hmiss) as Hstep.
    unfold recompute in Hstep. rewrite Hload in Hstep.
    destruct (chunk_text text CHUNK_SIZE_WORDS CHUNK_OVERLAP_WORDS);
      [done|].
    rewrite Henc in Hstep.
    eexists. split; [exact Hstep|]. intros rest. simpl. by rewrite Hstep.
  - intros listing st textbooks unsup e bs Hdisc Hloop.
    unfold build_or_update_index. rewrite Hdisc, Hloop.
    pose proof (build_loop_extends _load_txt _load_pdf _load_docx _load_doc
                  _compute_file_id encode textbooks (initial_build_state st))
      as Hext.
    rewrite Hloop in Hext. destruct Hext as (_ & _ & _ & _ & ? & ?).
    apply build_loop_raises in Hloop as (-> & _). done.
Qed.

(** C1 (as amended).  After a build that returns metadata with N >= 1 total
    chunks, the docstore and the index are both written, the docstore has N
    entries and the index N rows, both are the concatenation in the same
    order of the same per-file (chunks, embeddings) pairs, and row i of the
    index is the embedder's row for entry i of the docstore. *)
Theorem build_docstore_index_aligned listing st st' tr meta :
  encode_rows_ok encode ->
  cache_ok encode st ->
  build listing st = (st', tr, Ok meta) ->
  1 <= total_chunks meta ->
  exists ds ix,
    docstore st' = Some ds
    /\ faiss_index st' = Some ix
    /\ index_built meta = true
    /\ Py.len ds = total_chunks meta
    /\ Py.len ix = total_chunks meta
    /\ aligned encode ds ix
    /\ forall i c, ds !! i = Some c ->
         exists v, ix !! i = Some v /\ row_of_chunk encode c v.
Proof.
  intros Hrows Hcache Hbuild Htotal. unfold build_or_update_index in Hbuild.
  destruct (discover_textbook_files listing) as [textbooks unsup].
  pose proof (build_loop_inv _load_txt _load_pdf _load_docx _load_doc
                _compute_file_id encode textbooks (initial_build_state st)
                Hcache (acc_ok_initial encode st)) as Hinv.
  destruct (loop textbooks (initial_build_state st)) as [bs|e bs]; [|done].
  destruct Hinv as (_ & (blocks & Hok & Hchunks & Hembs) & _).
  unfold finish_build in Hbuild.
  destruct (all_embeddings bs) as [|m ms] eqn:Hall;
    injection Hbuild as <- <- <-; simpl in *; [lia|].
  assert (Hal : aligned encode (all_chunks bs) (concat (m :: ms))).
  { exists blocks. rewrite Hembs. done. }
  destruct (aligned_rows encode _ _ Hrows Hal) as [Hlen Hrow].
  exists (all_chunks bs), (concat (m :: ms)).
  split_and!; try done. unfold Py.len. by rewrite <- Hlen.
Qed.

(** C7.  When the loop over the files ends with no chunk at all, the build
    returns metadata (it does not raise) saying [index_built = False] and
    [total_chunks = 0]; that metadata is what is persisted; neither the index
    file nor the docstore is written. *)
Theorem build_zero_chunks_not_built listing st textbooks unsup bs :
  cache_ok encode st ->
  discover_textbook_files listing = (textbooks, unsup) ->
  loop textbooks (initial_build_state st) = Next bs ->
  all_chunks bs = [] ->
  exists st' tr meta,
    build listing st = (st', tr, Ok meta)
    /\ index_built meta = false
    /\ total_chunks meta = 0
    /\ index_metadata st' = Some meta
    /\ faiss_index st' = faiss_index st
    /\ docstore st' = docstore st
    /\ ~ In EvWriteIndex tr
    /\ In EvWriteMetadata tr.
Proof.
  intros Hcache Hdisc Hloop Hnil. unfold build_or_update_index.
  rewrite Hdisc.
  pose proof (build_loop_inv _load_txt _load_pdf _load_docx _load_doc
                _compute_file_id encode textbooks (initial_build_state st)
                Hcache (acc_ok_initial encode st)) as Hinv.
  rewrite Hloop in *.
  destruct Hinv as (_ & (blocks & Hok & Hchunks & Hembs) & Hext).
  destruct Hext as ((evs & Htr & Hevs) & _ & Hix & Hds & _ & _).
  assert (blocks = []) as ->.
  { destruct Hok as [|[cs e] blocks [Hne _] _]; [done|].
    rewrite Hnil in Hchunks. simpl in *. by destruct cs. }
  unfold finish_build. rewrite Hembs. simpl.
  eexists _, _, _. split_and!; try done.
  - rewrite Htr. simpl. intros Hin.
    apply in_app_or in Hin as [Hin|Hin].
    + apply in_app_or in Hin as [Hin|[Hin|[]]]; [|done].
      rewrite forallb_forall in Hevs. by apply Hevs in Hin.
    + by destruct Hin as [|[]].
  - apply in_or_app. right. by left.
Qed.

End BuildClaims.

(* ===================================================================== *)
(** * Retrieval *)
(* ===================================================================== *)

Module WalkFacts.

Lemma chars_app l1 l2 : chars (l1 ++ l2) = chars l1 + chars l2.
Proof. induction l1 as [|c l1 IH]; simpl; lia. Qed.

Lemma chars_snoc l c : chars (l ++ [c]) = chars l + Py.slen (c_text c).
Proof. rewrite chars_app. simpl. lia. Qed.

(** A usable candidate is the docstore entry at its index and has text. *)
Lemma usable_some ds idx meta :
  usable ds idx = Some meta ->
  (idx <? 0) || (idx >=? Py.len ds) = false
  /\ ds !! Z.to_nat idx = Some meta
  /\ Py.is_empty (c_text meta) = false.
Proof.
  unfold usable. repeat case_match; intros; simplify_eq. done.
Qed.

Lemma usable_none ds idx :
  usable ds idx = None ->
  (idx <? 0) || (idx >=? Py.len ds) = true
  \/ exists meta, (idx <? 0) || (idx >=? Py.len ds) = false
                  /\ ds !! Z.to_nat idx = Some meta
                  /\ Py.is_empty (c_text meta) = true.
Proof.
  unfold usable. destruct ((idx <? 0) || (idx >=? Py.len ds)) eqn:Hr;
    [by left|].
  apply orb_false_elim in Hr as [Hlo Hhi].
  apply Z.ltb_ge in Hlo. rewrite Z.geb_leb in Hhi. apply Z.leb_gt in Hhi.
  destruct (lookup_lt_is_Some_2 ds (Z.to_nat idx)) as [meta Hmeta].
  { unfold Py.len in Hhi. lia. }
  rewrite Hmeta. destruct (Py.is_empty (c_text meta)) eqn:He; [|done].
  intros _. right. exists meta. done.
Qed.

Lemma candidates_have_text ds idxs :
  Forall (fun c => c_text c <> "") (candidates ds idxs).
Proof.
  unfold candidates. induction idxs as [|idx idxs IH]; simpl; [done|].
  destruct (usable ds idx) as [meta|] eqn:Hu; [|done].
  constructor; [|done].
  apply usable_some in Hu as (_ & _ & He). by destruct (c_text meta).
Qed.

(** On a docstore whose chunks all have text, in-range indices are all
    usable: the candidates are the entries at the ranked indices. *)
Lemma candidates_all_usable ds idxs :
  Forall (fun c => c_text c <> "") ds ->
  Forall (fun idx => 0 <= idx < Py.len ds) idxs ->
  Forall2 (fun idx c => ds !! Z.to_nat idx = Some c) idxs (candidates ds idxs).
Proof.
  intros Hds Hidxs. unfold candidates.
  induction Hidxs as [|idx idxs [Hlo Hhi] _ IH]; simpl; [done|].
  destruct (lookup_lt_is_Some_2 ds (Z.to_nat idx)) as [meta Hmeta].
  { unfold Py.len in Hhi. lia. }
  assert (usable ds idx = Some meta) as ->.
  { unfold usable.
    replace (idx <? 0) with false by (symmetry; apply Z.ltb_ge; lia).
    replace (idx >=? Py.len ds) with false
      by (symmetry; rewrite Z.geb_leb; apply Z.leb_gt; lia).
    simpl. rewrite Hmeta.
    rewrite Forall_forall in Hds.
    assert (c_text meta <> "") as Hne.
    { apply Hds. by eapply list_elem_of_lookup_2. }
    by destruct (c_text meta). }
  by constructor.
Qed.

Lemma join_nonempty sep t rest : t <> "" -> Py.join sep (t :: rest) <> "".
Proof.
  unfold Py.join. simpl. destruct t as [|a t]; [done|].
  destruct rest; done.
Qed.

Lemma candidates_cons ds idx idxs :
  candidates ds (idx :: idxs)
  = match usable ds idx with
    | Some c => c :: candidates ds idxs
    | None => candidates ds idxs
    end.
Proof. reflexivity. Qed.

(** The loop, from any point of the walk: it returns the chunks chosen so
    far followed by a prefix of the remaining usable candidates. *)
Lemma walk_spec ds maxc idxs chosen :
  exists n,
    (n <= length (candidates ds idxs))%nat
    /\ walk ds (Py.len ds) maxc idxs chosen (map c_text chosen) (chars chosen)
       = Ok (map c_text (chosen ++ take n (candidates ds idxs)),
             chosen ++ take n (candidates ds idxs))
    /\ (chosen = [] -> candidates ds idxs <> [] -> (1 <= n)%nat)
    /\ (forall j, (j < n)%nat -> chosen <> [] \/ (1 <= j)%nat ->
          chars (chosen ++ take (S j) (candidates ds idxs)) <= maxc)
    /\ ((n < length (candidates ds idxs))%nat ->
        maxc < chars (chosen ++ take (S n) (candidates ds idxs))
        /\ chosen ++ take n (candidates ds idxs) <> []).
Proof.
  revert chosen.
  induction idxs as [|idx idxs IH]; intros chosen.
  { exists 0%nat. simpl. rewrite app_nil_r. split_and!; try done; lia. }
  rewrite candidates_cons.
  set (cs := candidates ds idxs) in *.
  destruct (usable ds idx) as [meta|] eqn:Hu.
  - apply usable_some in Hu as (Hr & Hmeta & He).
    simpl walk. rewrite Hr, Hmeta, He.
    destruct ((chars chosen + Py.slen (c_text meta) >? maxc)
              && negb match map c_text chosen with [] => true | _ => false end)
      eqn:Hstop.
    + apply andb_prop in Hstop as [Hover Hparts].
      apply Z.gtb_lt in Hover.
      assert (chosen <> []) by (by destruct chosen).
      exists 0%nat. simpl. rewrite app_nil_r.
      split_and!; [lia|done|done|intros; lia|].
      intros _. rewrite chars_snoc. split; [lia|done].
    + destruct (IH (chosen ++ [meta])) as (n & Hn & Hrun & _ & Hfit & Hcut).
      rewrite map_app, chars_snoc in Hrun. simpl in Hrun.
      assert (Hshift : forall m,
                chosen ++ take (S m) (meta :: cs)
                = (chosen ++ [meta]) ++ take m cs).
      { intros m. simpl. by rewrite <- app_assoc. }
      exists (S n). rewrite !Hshift.
      split_and!; [simpl; lia|done|intros; lia| |].
      * intros j Hj Hcond. rewrite Hshift. destruct j as [|j].
        -- destruct Hcond as [Hne|?]; [|lia]. simpl. rewrite app_nil_r.
           rewrite chars_snoc.
           apply andb_false_iff in Hstop as [Hfits|Hparts].
           ++ rewrite Z.gtb_ltb in Hfits. apply Z.ltb_ge in Hfits. lia.
           ++ by destruct chosen.
        -- apply Hfit; [lia|]. left. by destruct chosen.
      * intros Hlt. apply Hcut. simpl in Hlt. lia.
  - destruct (IH chosen) as (n & Hn & Hrun & Hfirst & Hfit & Hcut).
    exists n. split_and!; try done.
    simpl walk.
    destruct (usable_none ds idx Hu) as [Hr|(meta & Hr & Hmeta & He)].
    + by rewrite Hr.
    + by rewrite Hr, Hmeta, He.
Qed.

End WalkFacts.

Section RetrieveClaims.
Context {vec : Type}.
Variable encode : list string -> option (matrix vec).
Variable search : matrix vec -> matrix vec -> Z -> list Z.
Implicit Types (self : RAGTutor (vec := vec)).

Local Abbreviation retrieve := (_retrieve_context encode search).

(** C10.  An empty or whitespace-only question makes retrieval raise
    [ValueError("Question must not be empty")] with no call made: neither
    the embedder nor the index search runs.  Retrieval has no access to the
    persisted store and returns no new tutor, so docstore and index stay as
    they were. *)
Theorem retrieve_blank_question_raises self (question : string) :
  Py.all_space question = true ->
  retrieve self question
  = ([], Raise (ValueError "Question must not be empty")).
Proof.
  intros Hblank. unfold _retrieve_context.
  apply TextFacts.strip_empty_iff in Hblank. by rewrite Hblank.
Qed.

(** C3.  For a tutor with a non-empty docstore and a question the embedder
    accepts, retrieval embeds the question, searches once, and returns the
    texts, joined by a blank line, of a prefix of the usable candidates in
    ranked order.  The first usable candidate is always in that prefix, so
    the context is not empty, whatever its length; every later chunk of the
    prefix keeps the running total within [MAX_CONTEXT_CHARS]; and the walk
    stops at the first candidate that would exceed it.  When every docstore
    chunk has text and the search returns indices in range, as for an index
    written by the build, every ranked candidate is usable. *)
Theorem retrieve_context_budget self (question : string) (q : matrix vec) :
  Py.all_space question = false ->
  encode [question] = Some q ->
  _docstore self <> [] ->
  let ds := _docstore self in
  let k := Z.min TOP_K_CHUNKS (Py.len ds) in
  let idxs := search (_index self) q k in
  let cands := candidates ds idxs in
  exists n,
    (n <= length cands)%nat
    /\ retrieve self question
       = ([EvEncode [question]; EvSearch k],
          Ok (Py.join paragraph_sep (map c_text (take n cands)), take n cands))
    /\ (cands <> [] ->
        (1 <= n)%nat
        /\ Py.join paragraph_sep (map c_text (take n cands)) <> "")
    /\ (forall j, (1 <= j < n)%nat ->
          chars (take (S j) cands) <= MAX_CONTEXT_CHARS)
    /\ ((n < length cands)%nat ->
        MAX_CONTEXT_CHARS < chars (take (S n) cands))
    /\ (Forall (fun c => c_text c <> "") ds ->
        Forall (fun idx => 0 <= idx < Py.len ds) idxs ->
        Forall2 (fun idx c => ds !! Z.to_nat idx = Some c) idxs cands).
Proof.
  intros Hq Henc Hds ds k idxs cands.
  destruct (WalkFacts.walk_spec ds MAX_CONTEXT_CHARS idxs [])
    as (n & Hn & Hrun & Hfirst & Hfit & Hcut).
  simpl in Hrun, Hfit, Hcut. fold cands in Hn, Hrun, Hfirst, Hfit, Hcut.
  exists n. split_and!.
  - done.
  - unfold _retrieve_context.
    destruct (Py.is_empty (Py.strip question)) eqn:Hstrip.
    { apply TextFacts.strip_empty_iff in Hstrip. congruence. }
    rewrite Henc. fold ds k.
    assert ((k <=? 0) = false) as ->.
    { apply Z.leb_gt. unfold k, TOP_K_CHUNKS, ds.
      destruct (_docstore self); [done|].
      rewrite ChunkerFacts.len_cons.
      pose proof (ChunkerFacts.len_nonneg l). lia. }
    fold idxs. by rewrite Hrun.
  - intros Hne. specialize (Hfirst eq_refl Hne). split; [done|].
    pose proof (WalkFacts.candidates_have_text ds idxs) as Htext.
    fold cands in Htext.
    destruct cands as [|c cands']; [done|]. destruct n as [|n]; [lia|].
    simpl. apply WalkFacts.join_nonempty. by inversion Htext.
  - intros j [Hj1 Hj2]. apply Hfit; [done|by right].
  - intros Hlt. by apply Hcut.
  - apply WalkFacts.candidates_all_usable.
Qed.

End RetrieveClaims.

(* ===================================================================== *)
(** * The properties on the example corpus *)
(* ===================================================================== *)

Lemma corpus_encode_rows_ok : encode_rows_ok Corpus.encode.
Proof. intros texts m [= <-]. apply length_map. Qed.

Lemma corpus_empty_store_ok : cache_ok Corpus.encode Corpus.empty_store.
Proof. apply cache_ok_empty. Qed.

(** The chunker on the two files of the build scenario, chunk size 2 and
    no overlap. *)
Example chunk_text_scenario :
  chunk_text "alpha beta gamma delta" 2 0 = ["alpha beta"; "gamma delta"]
  /\ chunk_text "epsilon zeta" 2 0 = ["epsilon zeta"].
Proof. split; reflexivity. Qed.

(** The budget applies from the second chunk on: with a budget of five
    characters the first chunk, of 22 characters, is still returned. *)
Example walk_first_chunk_over_budget :
  walk [Corpus.chunk_A; Corpus.chunk_B] 2 5 [0; 1] [] [] 0
  = Ok (["alpha beta gamma delta"], [Corpus.chunk_A]).
Proof. reflexivity. Qed.

(** An invalid index and a chunk without text are skipped, not returned. *)
Example walk_skips_unusable :
  walk [mkChunk "x" "" "f" 0; Corpus.chunk_B] 2 100 [-1; 0; 1] [] [] 0
  = Ok (["epsilon zeta"], [Corpus.chunk_B]).
Proof. reflexivity. Qed.

(** The constructor's guard: an absent index file, an absent docstore or an
    empty docstore makes [RAGTutor()] raise [RuntimeError]. *)
Lemma RAGTutor_init_guard {vec : Type} (st : Store (vec := vec)) :
  faiss_index st = None \/ docstore st = None \/ docstore st = Some [] ->
  exists msg, RAGTutor_init st = Raise (RuntimeError msg).
Proof.
  unfold RAGTutor_init. intros [-> | [-> | ->]]; [by eexists| |].
  - destruct (faiss_index st); by eexists.
  - destruct (faiss_index st); by eexists.
Qed.

(** Witness for C1: the build over [A.txt] and [B.txt] from an empty store. *)
Lemma build_docstore_index_aligned_witness :
  encode_rows_ok Corpus.encode
  /\ cache_ok Corpus.encode Corpus.empty_store
  /\ Corpus.build [Corpus.A; Corpus.B] Corpus.empty_store
     = (Corpus.store_AB, Corpus.trace_AB, Ok Corpus.meta_AB)
  /\ 1 <= total_chunks Corpus.meta_AB
  /\ exists ds ix,
       docstore Corpus.store_AB = Some ds
       /\ faiss_index Corpus.store_AB = Some ix
       /\ index_built Corpus.meta_AB = true
       /\ Py.len ds = total_chunks Corpus.meta_AB
       /\ Py.len ix = total_chunks Corpus.meta_AB
       /\ aligned Corpus.encode ds ix
       /\ forall i c, ds !! i = Some c ->
            exists v, ix !! i = Some v /\ row_of_chunk Corpus.encode c v.
Proof.
  assert (Hbuild : Corpus.build [Corpus.A; Corpus.B] Corpus.empty_store
                   = (Corpus.store_AB, Corpus.trace_AB, Ok Corpus.meta_AB))
    by (vm_compute; reflexivity).
  assert (Htotal : 1 <= total_chunks Corpus.meta_AB) by (vm_compute; discriminate).
  split_and!;
    [ exact corpus_encode_rows_ok | exact corpus_empty_store_ok
    | exact Hbuild | exact Htotal | ].
  exact (build_docstore_index_aligned Corpus.txt Corpus.no_loader
           Corpus.no_loader Corpus.no_loader Corpus.file_id Corpus.encode
           _ _ _ _ _ corpus_encode_rows_ok corpus_empty_store_ok Hbuild Htotal).
Defined.

(** C1, as stated, fails for N = 0.  A build over an empty directory
    returns metadata with zero chunks and writes neither docstore nor index:
    from an empty store there is no docstore at all, and after an earlier
    build over [A.txt] the docstore and the index of that build stay, with
    one entry and one row. *)
Lemma zero_chunk_build_leaves_docstore :
  (exists meta,
      (Corpus.build [] Corpus.empty_store).2 = Ok meta
      /\ total_chunks meta = 0)
  /\ docstore (Corpus.build [] Corpus.empty_store).1.1 = None
  /\ faiss_index (Corpus.build [] Corpus.empty_store).1.1 = None
  /\ (exists meta,
        (Corpus.build [] Corpus.after_first).2 = Ok meta
        /\ total_chunks meta = 0)
  /\ (exists ds ix,
        docstore Corpus.after_second = Some ds
        /\ faiss_index Corpus.after_second = Some ix
        /\ Py.len ds = 1 /\ Py.len ix = 1).
Proof.
  split_and!.
  - eexists. split; reflexivity.
  - reflexivity.
  - reflexivity.
  - eexists. split; reflexivity.
  - exists [Corpus.chunk_A], [22%nat]. split_and!; reflexivity.
Qed.

(** C2, as stated, fails: [E.txt] has no fingerprint record, so it is
    recomputed, but its text is empty and neither the chunker nor the
    embedder is called; the file is recorded as unsupported. *)
Lemma dirty_file_without_text_not_rechunked :
  PyDict.get (existing_meta (initial_build_state Corpus.empty_store))
    (sf_path Corpus.E) = None
  /\ Corpus.process Corpus.E (initial_build_state Corpus.empty_store)
     = Next (mkBuildState Corpus.empty_store [EvLoadText "/books/E.txt"]
               [] [] []
               [mkUnsupported "/books/E.txt"
                  "File contains no extractable text"]).
Proof. split; reflexivity. Qed.

(** C4, as stated, fails: when the embedder fails on the chunks of
    [A.txt], the build raises, [B.txt] is never looked at, and nothing is
    recorded: no metadata is written. *)
Lemma embedding_failure_aborts_build :
  Corpus.build_failing [Corpus.A; Corpus.B] Corpus.empty_store
  = (Corpus.empty_store,
     [EvLoadText "/books/A.txt"; EvChunkText "alpha beta gamma delta";
      EvEncode ["alpha beta gamma delta"]],
     Raise EmbedderError).
Proof. reflexivity. Qed.

(** Witness for C6: only the chunk artifact of [A.txt] is in the cache. *)
Lemma load_cache_partial_is_miss_witness :
  (chunk_files Corpus.partial_store !! "/books/A.txt" = None
   \/ emb_files Corpus.partial_store !! "/books/A.txt" = None)
  /\ _load_cached_chunks_and_embeddings Corpus.partial_store "/books/A.txt"
     = Raise (FileNotFoundError "Cache files not found").
Proof.
  assert (Hmiss : chunk_files Corpus.partial_store !! "/books/A.txt" = None
                  \/ emb_files Corpus.partial_store !! "/books/A.txt" = None)
    by (right; reflexivity).
  split; [exact Hmiss|].
  exact (proj1 (load_cache_partial_is_miss Corpus.file_id
                  Corpus.partial_store "/books/A.txt" Hmiss)).
Defined.

(** Witness for C7: the only file has no text, so the loop ends with no
    chunk. *)
Lemma build_zero_chunks_not_built_witness :
  cache_ok Corpus.encode Corpus.empty_store
  /\ discover_textbook_files [Corpus.E] = ([Corpus.E], [])
  /\ Corpus.loop [Corpus.E] (initial_build_state Corpus.empty_store)
     = Next Corpus.bs_E
  /\ all_chunks Corpus.bs_E = []
  /\ exists st' tr meta,
       Corpus.build [Corpus.E] Corpus.empty_store = (st', tr, Ok meta)
       /\ index_built meta = false
       /\ total_chunks meta = 0
       /\ index_metadata st' = Some meta
       /\ faiss_index st' = faiss_index Corpus.empty_store
       /\ docstore st' = docstore Corpus.empty_store
       /\ ~ In EvWriteIndex tr
       /\ In EvWriteMetadata tr.
Proof.
  assert (Hdisc : discover_textbook_files [Corpus.E] = ([Corpus.E], []))
    by reflexivity.
  assert (Hloop : Corpus.loop [Corpus.E]
                    (initial_build_state Corpus.empty_store)
                  = Next Corpus.bs_E) by reflexivity.
  assert (Hnil : all_chunks Corpus.bs_E = []) by reflexivity.
  split_and!;
    [ exact corpus_empty_store_ok | exact Hdisc | exact Hloop | exact Hnil | ].
  exact (build_zero_chunks_not_built Corpus.txt Corpus.no_loader
           Corpus.no_loader Corpus.no_loader Corpus.file_id Corpus.encode
           _ _ _ _ _ corpus_empty_store_ok Hdisc Hloop Hnil).
Defined.

(** Witness for C3: a question against the tutor over the two chunks. *)
Lemma retrieve_context_budget_witness :
  Py.all_space "gamma" = false
  /\ Corpus.encode ["gamma"] = Some [5%nat]
  /\ _docstore Corpus.tutor <> []
  /\ exists n,
       (1 <= n)%nat
       /\ Corpus.retrieve Corpus.tutor "gamma"
          = ([EvEncode ["gamma"]; EvSearch 2],
             Ok (Py.join paragraph_sep
                   (map c_text (take n [Corpus.chunk_A; Corpus.chunk_B])),
                 take n [Corpus.chunk_A; Corpus.chunk_B])).
Proof.
  assert (Hq : Py.all_space "gamma" = false) by reflexivity.
  assert (Henc : Corpus.encode ["gamma"] = Some [5%nat]) by reflexivity.
  assert (Hds : _docstore Corpus.tutor <> []) by discriminate.
  split_and!; [exact Hq|exact Henc|exact Hds|].
  destruct (retrieve_context_budget Corpus.encode Corpus.search Corpus.tutor
              "gamma" [5%nat] Hq Henc Hds)
    as (n & _ & Hrun & Hfirst & _).
  exists n. split; [apply Hfirst; discriminate|exact Hrun].
Defined.

(** Witness for C10: a question of three spaces. *)
Lemma retrieve_blank_question_raises_witness :
  Py.all_space "   " = true
  /\ Corpus.retrieve Corpus.tutor "   "
     = ([], Raise (ValueError "Question must not be empty")).
Proof.
  assert (Hblank : Py.all_space "   " = true) by reflexivity.
  split; [exact Hblank|].
  exact (retrieve_blank_question_raises Corpus.encode Corpus.search
           Corpus.tutor "   " Hblank).
Defined.

(** C8 fails on the code.  [A.txt] is indexed, then removed, and the index
    is rebuilt: the second build reports [index_built = False] with zero
    chunks, yet the constructor finds the index and the docstore of the
    first build and retrieval answers from them. *)
Theorem stale_index_answered_after_empty_build :
  (exists meta,
      index_metadata Corpus.after_second = Some meta
      /\ index_built meta = false
      /\ total_chunks meta = 0)
  /\ RAGTutor_init Corpus.after_second
     = Ok (mkRAGTutor [Corpus.chunk_A] [22%nat])
  /\ Corpus.retrieve (mkRAGTutor [Corpus.chunk_A] [22%nat]) "gamma delta"
     = ([EvEncode ["gamma delta"]; EvSearch 1],
        Ok ("alpha beta gamma delta", [Corpus.chunk_A])).
Proof.
  split_and!.
  - eexists. split_and!; reflexivity.
  - reflexivity.
  - reflexivity.
Qed.

(* ===================================================================== *)
(** * More on the build: cache, records, texts, extensions *)
(* ===================================================================== *)

Section BuildMore.
Context {vec : Type}.
Variables _load_txt _load_pdf _load_docx _load_doc : string -> loaded.
Variable _compute_file_id : string -> string.
Variable encode : list string -> option (matrix vec).
Implicit Types (bs : BuildState (vec := vec)) (st : Store (vec := vec)).

Local Abbreviation load_text :=
  (load_text_from_file _load_txt _load_pdf _load_docx _load_doc).
Local Abbreviation try_cache' := (try_cache _compute_file_id).
Local Abbreviation recompute' :=
  (recompute _load_txt _load_pdf _load_docx _load_doc _compute_file_id encode).
Local Abbreviation process :=
  (process_file _load_txt _load_pdf _load_docx _load_doc _compute_file_id
     encode).
Local Abbreviation loop :=
  (build_loop _load_txt _load_pdf _load_docx _load_doc _compute_file_id
     encode).
Local Abbreviation build :=
  (build_or_update_index _load_txt _load_pdf _load_docx _load_doc
     _compute_file_id encode).

(** The three ways an iteration can end without raising, and the one way
    it raises. *)
Lemma process_file_cases path bs :
  let b := _compute_file_id (sf_path path) in
  let bs0 := (try_cache' path bs).2 in
  (exists chunks emb,
      is_hit path (file_status _compute_file_id path bs) chunks emb
      /\ process path bs = Next (reuse chunks emb (log (EvLoadCache b) bs)))
  \/ (~ (exists chunks emb,
            is_hit path (file_status _compute_file_id path bs) chunks emb)
      /\ bs_store bs0 = bs_store bs
      /\ existing_meta bs0 = existing_meta bs
      /\ all_chunks bs0 = all_chunks bs
      /\ all_embeddings bs0 = all_embeddings bs
      /\ runtime_unsupported bs0 = runtime_unsupported bs
      /\ (bs_trace bs0 = bs_trace bs
          \/ bs_trace bs0 = bs_trace bs ++ [EvLoadCache b])
      /\ ((exists reason,
              load_text path = (None, reason)
              /\ process path bs
                 = Next (record_unsupported (sf_path path)
                           (reason_or_unreadable reason)
                           (log (EvLoadText (sf_path path)) bs0)))
          \/ (exists text reason,
                 load_text path = (Some text, reason)
                 /\ let texts :=
                      chunk_text text CHUNK_SIZE_WORDS CHUNK_OVERLAP_WORDS in
                    let bs1 :=
                      log (EvEncode texts)
                        (log (EvChunkText text)
                           (log (EvLoadText (sf_path path)) bs0)) in
                    texts <> []
                    /\ match encode texts with
                       | None => process path bs = Raised EmbedderError bs1
                       | Some emb =>
                           process path bs
                           = Next (mkBuildState
                                     (_save_cached_chunks_and_embeddings b
                                        (per_file_chunks_of b (sf_path path)
                                           texts) emb (bs_store bs))
                                     (bs_trace bs1 ++ [EvSaveCache b])
                                     (PyDict.set (existing_meta bs)
                                        (sf_path path)
                                        (mkFileMeta (sf_path path) b
                                           (st_mtime_ns path) (st_size path)
                                           b))
                                     (all_chunks bs
                                      ++ per_file_chunks_of b (sf_path path)
                                           texts)
                                     (all_embeddings bs ++ [emb])
                                     (runtime_unsupported bs))
                       end))).
Proof.
  intros b bs0. unfold is_hit, file_status. simpl.
  unfold bs0, b. clear bs0 b.
  destruct (try_cache_cases _compute_file_id path bs)
    as [(chunks & emb & Hfp & Hc & He & Htc)|[(Hfp & Hmiss & Htc)|(Hfp & Htc)]].
  - left. exists chunks, emb. split; [done|].
    unfold process_file. by rewrite Htc.
  - right. assert (Hno : ~ (exists chunks emb,
        fingerprint_matches (PyDict.get (existing_meta bs) (sf_path path)) path
        = true
        /\ chunk_files (bs_store bs) !! _compute_file_id (sf_path path)
           = Some chunks
        /\ emb_files (bs_store bs) !! _compute_file_id (sf_path path)
           = Some emb)).
    { intros (chunks & emb & _ & Hc & He). destruct Hmiss; congruence. }
    pose proof (process_file_miss _load_txt _load_pdf _load_docx _load_doc
                  _compute_file_id encode path bs) as Hstep.
    rewrite Htc in *. simpl in *.
    specialize (Hstep eq_refl).
    split_and!; try done; [by right|].
    unfold recompute in Hstep.
    destruct (load_text path) as [[text|] reason] eqn:Hload.
    + right. exists text, reason. split; [done|].
      pose proof (TextFacts.loaded_text_has_chunks _ _ _ _ _ _ _ Hload) as Hne.
      split; [done|].
      destruct (chunk_text text CHUNK_SIZE_WORDS CHUNK_OVERLAP_WORDS);
        [done|].
      destruct (encode (s :: l)); exact Hstep.
    + left. exists reason. done.
  - right. assert (Hno : ~ (exists chunks emb,
        fingerprint_matches (PyDict.get (existing_meta bs) (sf_path path)) path
        = true
        /\ chunk_files (bs_store bs) !! _compute_file_id (sf_path path)
           = Some chunks
        /\ emb_files (bs_store bs) !! _compute_file_id (sf_path path)
           = Some emb)).
    { intros (chunks & emb & Hfp' & _). congruence. }
    pose proof (process_file_miss _load_txt _load_pdf _load_docx _load_doc
                  _compute_file_id encode path bs) as Hstep.
    rewrite Htc in *. simpl in *.
    specialize (Hstep eq_refl).
    split_and!; try done; [by left|].
    unfold recompute in Hstep.
    destruct (load_text path) as [[text|] reason] eqn:Hload.
    + right. exists text, reason. split; [done|].
      pose proof (TextFacts.loaded_text_has_chunks _ _ _ _ _ _ _ Hload) as Hne.
      split; [done|].
      destruct (chunk_text text CHUNK_SIZE_WORDS CHUNK_OVERLAP_WORDS);
        [done|].
      destruct (encode (s :: l)); exact Hstep.
    + left. exists reason. done.
Qed.


End BuildMore.

(* ===================================================================== *)
(** * More on the chunker: words and coverage *)
(* ===================================================================== *)

Module WordFacts.

(** Words of [split]. *)
Lemma word_of_cur (c : ascii) cur :
  Py.is_space c = false ->
  forallb (fun a => negb (Py.is_space a)) cur = true ->
  is_word (string_of_list_ascii (rev (c :: cur))).
Proof.
  intros Hc Hcur.
  assert (Hall : forallb (fun a => negb (Py.is_space a)) (rev (c :: cur))
                 = true).
  { rewrite forallb_forall in *. intros a Ha. apply in_rev in Ha.
    destruct Ha as [<-|Ha]; [by rewrite Hc|by apply Hcur]. }
  assert (Hne : rev (c :: cur) <> []).
  { simpl. by destruct (rev cur). }
  revert Hall Hne. generalize (rev (c :: cur)). intros l Hall Hne. split.
  - by destruct l.
  - clear Hne. induction l as [|a l IHl]; simpl in *; [done|].
    apply andb_prop in Hall as [-> Hall]. simpl. auto.
Qed.

Lemma split_aux_words s cur :
  forallb (fun a => negb (Py.is_space a)) cur = true ->
  Forall is_word (Py.split_aux s cur).
Proof.
  revert cur. induction s as [|c s IH]; intros cur Hcur; simpl.
  - destruct cur as [|a cur]; [done|]. apply Forall_singleton.
    simpl in Hcur. apply andb_prop in Hcur as [Ha Hcur].
    apply word_of_cur; [by destruct (Py.is_space a)|done].
  - destruct (Py.is_space c) eqn:Hc.
    + destruct cur as [|a cur]; [by apply IH|].
      constructor; [|by apply IH].
      simpl in Hcur. apply andb_prop in Hcur as [Ha Hcur].
      apply word_of_cur; [by destruct (Py.is_space a)|done].
    + apply IH. simpl. by rewrite Hc, Hcur.
Qed.

Lemma split_words s : Forall is_word (Py.split s).
Proof. by apply split_aux_words. Qed.

(** Reading a word: its characters go to the accumulator. *)
Lemma split_aux_read_word w rest cur :
  no_space w = true ->
  Py.split_aux (w ++ rest)%string cur
  = Py.split_aux rest (rev (list_ascii_of_string w) ++ cur).
Proof.
  revert cur. induction w as [|c w IH]; intros cur Hw; simpl in *; [done|].
  apply andb_prop in Hw as [Hc Hw].
  destruct (Py.is_space c); [done|].
  rewrite IH by done. by rewrite <- app_assoc.
Qed.

Lemma word_chars_nonempty w :
  is_word w -> exists a l, rev (list_ascii_of_string w) ++ [] = a :: l.
Proof.
  intros [Hne _]. rewrite app_nil_r. destruct w as [|c w]; [done|]. simpl.
  destruct (rev (list_ascii_of_string w)) as [|a l]; simpl; eauto.
Qed.

Lemma word_chars_back w :
  string_of_list_ascii (rev (rev (list_ascii_of_string w) ++ [])) = w.
Proof.
  by rewrite app_nil_r, rev_involutive, string_of_list_ascii_of_string.
Qed.

Lemma string_append_empty (w : string) : (w ++ "")%string = w.
Proof.
  induction w as [|c w IH]; [done|].
  change (String c (w ++ "")%string = String c w). by rewrite IH.
Qed.

(** Splitting single-space-joined words gives the words back. *)
Lemma split_join_words ws :
  Forall is_word ws -> Py.split (Py.join " " ws) = ws.
Proof.
  unfold Py.split, Py.join.
  induction 1 as [|w ws Hw Hws IH]; [done|].
  destruct (word_chars_nonempty w Hw) as (a & l & Hchars).
  pose proof (word_chars_back w) as Hback. rewrite Hchars in Hback.
  destruct Hw as [_ Hns].
  simpl String.concat. destruct ws as [|w' ws'].
  - rewrite <- (string_append_empty w) at 1.
    rewrite split_aux_read_word by done. simpl. rewrite Hchars.
    by rewrite Hback.
  - rewrite split_aux_read_word by done.
    change (Py.split_aux (String " "%char (String.concat " " (w' :: ws')))
              (rev (list_ascii_of_string w) ++ [])
            = w :: w' :: ws').
    simpl Py.split_aux at 1. rewrite Hchars.
    change (Py.is_space " "%char) with true.
    rewrite Hback. f_equal. exact IH.
Qed.

(** Cutting a list into consecutive pieces of [step] elements loses
    nothing. *)
Lemma pieces_concat {A} (l : list A) (step count : nat) :
  (length l <= count * step)%nat ->
  concat (map (fun k => take step (drop (k * step) l)) (seq 0 count)) = l.
Proof.
  revert l. induction count as [|count IH]; intros l Hlen.
  - simpl in *. destruct l; [done|simpl in Hlen; lia].
  - cbn [seq map concat]. rewrite <- seq_shift, map_map.
    change (0 * step)%nat with 0%nat. rewrite drop_0.
    transitivity (take step l ++ drop step l); [|apply take_drop].
    f_equal.
    rewrite <- (IH (drop step l)) by (rewrite length_drop; lia).
    f_equal. apply map_ext. intros k. rewrite drop_drop.
    repeat f_equal; lia.
Qed.

End WordFacts.

(** X1.  With a positive chunk size, the chunks are exactly the windows
    joined by single spaces: window [k] starts at word [k * step], with
    [step = max(1, size - overlap)], and there are ceil(n / step) of them
    for [n] words. *)
Theorem chunk_text_windows (text : string) (chunk_size_words overlap_words : Z) :
  1 <= chunk_size_words ->
  chunk_text text chunk_size_words overlap_words
  = map (Py.join " ")
        (chunk_windows (Py.split text) chunk_size_words
           (Z.max 1 (chunk_size_words - overlap_words))).
Proof.
  intros Hsize. rewrite WindowFacts.chunk_text_unfold by done.
  unfold chunk_windows. by rewrite map_map.
Qed.

Lemma chunk_text_windows_witness :
  1 <= 2
  /\ chunk_text "alpha beta gamma" 2 1
     = map (Py.join " ")
         (chunk_windows (Py.split "alpha beta gamma") 2 (Z.max 1 (2 - 1))).
Proof.
  assert (Hsize : 1 <= 2) by lia.
  split; [exact Hsize|].
  exact (chunk_text_windows "alpha beta gamma" 2 1 Hsize).
Defined.

Module CoverFacts.

(** Window [k] exists only if it starts inside the text, and the windows
    reach the end of the text. *)
Lemma chunk_count_bound n step k :
  1 <= step -> (k < chunk_count n step)%nat -> Z.of_nat k * step < n.
Proof.
  unfold chunk_count. intros Hstep Hk.
  assert (0 < (n + step - 1) / step) as Hpos by lia.
  pose proof (Z.div_mod (n + step - 1) step ltac:(lia)) as Hdm.
  pose proof (Z.mod_pos_bound (n + step - 1) step ltac:(lia)) as Hmod.
  assert (Z.of_nat k + 1 <= (n + step - 1) / step) as Hle by lia.
  nia.
Qed.

Lemma chunk_count_reaches n step :
  1 <= step -> 0 <= n -> n <= Z.of_nat (chunk_count n step) * step.
Proof.
  unfold chunk_count. intros Hstep Hn.
  pose proof (Z.div_mod (n + step - 1) step ltac:(lia)) as Hdm.
  pose proof (Z.mod_pos_bound (n + step - 1) step ltac:(lia)) as Hmod.
  pose proof (Z.div_pos (n + step - 1) step ltac:(lia) ltac:(lia)) as Hq.
  rewrite Z2Nat.id by done. nia.
Qed.

(** Window [k], for a positive size, as a [take] of a [drop]. *)
Lemma window_take_drop (words : list string) size step k :
  1 <= size -> 1 <= step ->
  Py.slice words (Z.of_nat k * step) (Z.of_nat k * step + size)
  = take (Z.to_nat size) (drop (k * Z.to_nat step) words).
Proof.
  intros Hsize Hstep. rewrite WindowFacts.slice_take_drop by nia.
  f_equal; [f_equal; lia|]. f_equal.
  rewrite Z2Nat.inj_mul, Nat2Z.id by lia. done.
Qed.

Lemma window_words text size step k :
  1 <= size -> 1 <= step ->
  Forall is_word
    (Py.slice (Py.split text) (Z.of_nat k * step) (Z.of_nat k * step + size)).
Proof.
  intros Hsize Hstep. rewrite window_take_drop by done.
  apply Forall_take, Forall_drop, WordFacts.split_words.
Qed.

(** No chunk is the empty string. *)
Lemma chunk_text_chunks_have_text text size overlap :
  1 <= size -> Forall (fun chunk => chunk <> "") (chunk_text text size overlap).
Proof.
  intros Hsize. rewrite WindowFacts.chunk_text_unfold by done.
  set (step := Z.max 1 (size - overlap)).
  assert (Hstep : 1 <= step) by (unfold step; lia).
  apply Forall_forall. intros chunk Hin.
  apply list_elem_of_In, in_map_iff in Hin as (k & <- & Hk).
  apply in_seq in Hk as [_ Hk]. simpl in Hk.
  pose proof (chunk_count_bound _ _ _ Hstep Hk) as Hstart.
  pose proof (window_words text size step k Hsize Hstep) as Hwords.
  pose proof (ChunkerFacts.slice_inside_nonempty (Py.split text)
                (Z.of_nat k * step) size ltac:(nia) Hsize) as Hne.
  destruct (Py.slice (Py.split text) _ _) as [|w ws]; [done|].
  apply Forall_cons in Hwords as [[Hw _] _].
  by apply WalkFacts.join_nonempty.
Qed.

End CoverFacts.

(** X2.  With a positive chunk size and a non-negative overlap no word is
    lost: the first [step] words of every chunk, in order, are the words of
    the text. *)
Theorem chunk_text_covers_text (text : string) (chunk_size_words overlap_words : Z) :
  1 <= chunk_size_words ->
  0 <= overlap_words ->
  concat (map (fun chunk =>
                 take (Z.to_nat (Z.max 1 (chunk_size_words - overlap_words)))
                      (Py.split chunk))
              (chunk_text text chunk_size_words overlap_words))
  = Py.split text.
Proof.
  intros Hsize Hover. rewrite WindowFacts.chunk_text_unfold by done.
  set (step := Z.max 1 (chunk_size_words - overlap_words)).
  assert (Hstep : 1 <= step) by (unfold step; lia).
  rewrite map_map.
  rewrite <- (WordFacts.pieces_concat (Py.split text) (Z.to_nat step)
                (chunk_count (Py.len (Py.split text)) step)) at 2.
  - f_equal. apply map_ext. intros k.
    rewrite WordFacts.split_join_words
      by (by apply CoverFacts.window_words).
    rewrite CoverFacts.window_take_drop by done.
    rewrite take_take. f_equal. unfold step. lia.
  - pose proof (CoverFacts.chunk_count_reaches (Py.len (Py.split text)) step
                  Hstep (ChunkerFacts.len_nonneg _)) as Hreach.
    apply Nat2Z.inj_le. rewrite Nat2Z.inj_mul, Z2Nat.id by lia.
    exact Hreach.
Qed.

Lemma chunk_text_covers_text_witness :
  1 <= 2 /\ 0 <= 1
  /\ concat (map (fun chunk => take (Z.to_nat (Z.max 1 (2 - 1)))
                                 (Py.split chunk))
               (chunk_text "alpha beta gamma" 2 1))
     = Py.split "alpha beta gamma".
Proof.
  assert (Hsize : 1 <= 2) by lia. assert (Hover : 0 <= 1) by lia.
  split_and!; [exact Hsize|exact Hover|].
  exact (chunk_text_covers_text "alpha beta gamma" 2 1 Hsize Hover).
Defined.

(** X3.  With a positive chunk size every chunk is whitespace-normalised
    and word-bounded: it is the single-space join of its own words, of which
    it has at least one and at most [chunk_size_words]; in particular no
    chunk is the empty string. *)
Theorem chunk_text_chunk_shape (text : string) (chunk_size_words overlap_words : Z) :
  1 <= chunk_size_words ->
  Forall (fun chunk =>
            Py.join " " (Py.split chunk) = chunk
            /\ 1 <= Py.len (Py.split chunk) <= chunk_size_words
            /\ chunk <> "")
         (chunk_text text chunk_size_words overlap_words).
Proof.
  intros Hsize. rewrite WindowFacts.chunk_text_unfold by done.
  set (step := Z.max 1 (chunk_size_words - overlap_words)).
  assert (Hstep : 1 <= step) by (unfold step; lia).
  apply Forall_forall. intros chunk Hin.
  apply list_elem_of_In, in_map_iff in Hin as (k & <- & Hk).
  apply in_seq in Hk as [_ Hk]. simpl in Hk.
  pose proof (CoverFacts.chunk_count_bound _ _ _ Hstep Hk) as Hstart.
  pose proof (CoverFacts.window_words text chunk_size_words step k
                Hsize Hstep) as Hwords.
  pose proof (ChunkerFacts.slice_inside_nonempty (Py.split text)
                (Z.of_nat k * step) chunk_size_words ltac:(nia) Hsize) as Hne.
  rewrite WordFacts.split_join_words by done.
  split_and!; [done| | |].
  - destruct (Py.slice (Py.split text) _ _); [done|].
    rewrite ChunkerFacts.len_cons.
    pose proof (ChunkerFacts.len_nonneg l). lia.
  - rewrite CoverFacts.window_take_drop by done.
    unfold Py.len. rewrite length_take. lia.
  - destruct (Py.slice (Py.split text) _ _) as [|w ws]; [done|].
    apply Forall_cons in Hwords as [[Hw _] _].
    by apply WalkFacts.join_nonempty.
Qed.

Lemma chunk_text_chunk_shape_witness :
  1 <= 2
  /\ Forall (fun chunk =>
               Py.join " " (Py.split chunk) = chunk
               /\ 1 <= Py.len (Py.split chunk) <= 2
               /\ chunk <> "")
            (chunk_text "  alpha   beta gamma " 2 1).
Proof.
  assert (Hsize : 1 <= 2) by lia.
  split; [exact Hsize|].
  exact (chunk_text_chunk_shape "  alpha   beta gamma " 2 1 Hsize).
Defined.

(** X4.  A chunk size of zero gives no chunk at all, whatever the text and
    the overlap: the first window is empty and the loop breaks. *)
Theorem chunk_text_zero_size (text : string) (overlap_words : Z) :
  chunk_text text 0 overlap_words = [].
Proof.
  unfold chunk_text, chunk_text_fuel.
  destruct (Py.split text) as [|w ws]; [done|].
  rewrite chunk_loop_unfold.
  rewrite WindowFacts.slice_take_drop by lia. simpl.
  by destruct (0 <? Py.len (w :: ws)).
Qed.

(* ===================================================================== *)
(** * More on discovery and text loading *)
(* ===================================================================== *)

(** X5.  Discovery is a stable partition of the listing: the supported
    files are those whose lower-cased suffix is one of the four, the others
    are unsupported, both in listing order, and every file is in exactly one
    of the two lists. *)
Theorem discover_is_partition (listing : list SourceFile) :
  discover_textbook_files listing
  = (List.filter is_supported listing,
     List.filter (fun path => negb (is_supported path)) listing)
  /\ (length (discover_textbook_files listing).1
      + length (discover_textbook_files listing).2
      = length listing)%nat.
Proof.
  assert (Heq : discover_textbook_files listing
                = (List.filter is_supported listing,
                   List.filter (fun path => negb (is_supported path)) listing)).
  { induction listing as [|path rest IH]; [done|].
    cbn [discover_textbook_files List.filter]. rewrite IH. cbv zeta.
    change (str_in (Py.lower (sf_suffix path)) SUPPORTED_EXTENSIONS)
      with (is_supported path).
    by destruct (is_supported path). }
  split; [exact Heq|]. rewrite Heq. clear Heq. cbn [fst snd].
  induction listing as [|path rest IH]; [done|].
  cbn [List.filter]. destruct (is_supported path); simpl length; lia.
Qed.

Section LoadingMore.
Variables _load_txt _load_pdf _load_docx _load_doc : string -> loaded.

Local Abbreviation load_text :=
  (load_text_from_file _load_txt _load_pdf _load_docx _load_doc).


End LoadingMore.
